(** * Medidor de nivel de ruido: shallow embedding of Projeto_Final_Edcarllos.c

    The firmware is a single C translation unit for the RP2040.  Its
    globals and function-local statics are gathered in one record that is
    threaded explicitly through every function; the values the hardware
    supplies (ADC readings, GPIO levels, the microsecond timer) are
    arguments of the function that reads them; what the firmware sends to
    the PWM block and to the OLED panel is returned as a list of
    operations.

    C [float] is IEEE-754 binary32.  It is embedded with the parametric
    specification of the standard library ([spec_float], borrowed from
    Flocq) instantiated at precision 24 and maximal exponent 128, with
    round-to-nearest-even, and every C operator is one rounded operation
    (no excess precision, no fused multiply-add: the Cortex-M0+ has no
    FPU). *)

From Stdlib Require Import ZArith QArith List Bool Lia String.
From Stdlib Require Import Floats.SpecFloat.
From stdpp Require Import base list.

Open Scope Z_scope.
Set Default Proof Using "Type".

(** ** binary32 arithmetic *)

Module F32.

Definition prec : Z := 24.
Definition emax : Z := 128.

Definition float : Type := spec_float.

Definition add : float -> float -> float := SFadd prec emax.
Definition sub : float -> float -> float := SFsub prec emax.
Definition mul : float -> float -> float := SFmul prec emax.
Definition div : float -> float -> float := SFdiv prec emax.
Definition sqrtf : float -> float := SFsqrt prec emax.

(** [x < y], [x <= y]; both are false as soon as an operand is NaN. *)
Definition ltb : float -> float -> bool := SFltb.
Definition leb : float -> float -> bool := SFleb.

(** Conversion of a C integer to [float] (exact below 2^24). *)
Definition of_Z (z : Z) : float := binary_normalize prec emax z 0 false.

(** A decimal literal [n/d] written with the [f] suffix: the binary32
    number nearest to the quotient. *)
Definition lit (n d : positive) : float :=
  let '(m, e, l) := SFdiv_core_binary prec emax (Zpos n) 0 (Zpos d) 0 in
  binary_round_aux prec emax false m e l.

Definition zero : float := S754_zero false.
Definition one : float := of_Z 1.

Definition is_nan (x : float) : bool :=
  match x with S754_nan => true | _ => false end.

(** C99 [fmaxf]/[fminf]: a NaN operand is treated as missing data. *)
Definition fmaxf (x y : float) : float :=
  if is_nan x then y
  else if is_nan y then x
  else if ltb x y then y else x.

Definition fminf (x y : float) : float :=
  if is_nan x then y
  else if is_nan y then x
  else if ltb y x then y else x.

(** The cast [(int)x]: truncation toward zero.  C leaves the cast of a
    NaN, of an infinity and of a value outside the range of [int]
    undefined; the embedding returns 0 for the first two and the
    mathematical integer for the last. *)
Definition to_int (x : float) : Z :=
  match x with
  | S754_finite s m e =>
      let a := Z.shiftl (Zpos m) e in
      if s then - a else a
  | _ => 0
  end.

(** Equality of representations (unlike [==] of C it tells [+0] from
    [-0] and equates NaN with itself). *)
Definition eqb_bits (x y : float) : bool :=
  match x, y with
  | S754_zero a, S754_zero b => Bool.eqb a b
  | S754_infinity a, S754_infinity b => Bool.eqb a b
  | S754_nan, S754_nan => true
  | S754_finite a m e, S754_finite b n f =>
      Bool.eqb a b && Pos.eqb m n && Z.eqb e f
  | _, _ => false
  end.

(** The rational number a float denotes ([None] for infinities and NaN). *)
Definition valor (x : float) : option Q :=
  match x with
  | S754_zero _ => Some 0%Q
  | S754_finite s m e =>
      let a := (inject_Z (Zpos m) * Qpower 2 e)%Q in
      Some (if s then Qopp a else a)
  | _ => None
  end.

End F32.

Declare Scope f32_scope.
Delimit Scope f32_scope with f32.
Infix "+" := F32.add : f32_scope.
Infix "-" := F32.sub : f32_scope.
Infix "*" := F32.mul : f32_scope.
Infix "/" := F32.div : f32_scope.
Infix "<?" := F32.ltb : f32_scope.

Abbreviation float := F32.float.

(** ** Machine integers *)

Definition wrap16 (z : Z) : Z := z mod 65536.
Definition wrap32 (z : Z) : Z := z mod 4294967296.
Definition wrap8 (z : Z) : Z := z mod 256.

(** ** Configuration constants of the source *)

Definition BUZZER_PIN : Z := 10.
Definition LIMITE_DB : float := F32.of_Z 100.
Definition CALIBRACAO : float := F32.lit 2 100000.
Definition AMOSTRAS : Z := 64.
Definition TAMANHO_HISTORICO : Z := 128.
Definition UPDATE_INTERVAL_MS : Z := 30.

(** ** Global state *)

Inductive Modo := MONITORAMENTO | ALERTA | ESTATISTICAS.

Definition Modo_eqb (a b : Modo) : bool :=
  match a, b with
  | MONITORAMENTO, MONITORAMENTO | ALERTA, ALERTA
  | ESTATISTICAS, ESTATISTICAS => true
  | _, _ => false
  end.

(** The globals of the translation unit followed by the three
    function-local statics ([offset_dc] of [ler_decibeis], [last_press] of
    [verificar_botoes], [estado_anterior] of [acionar_buzzer]). *)
Record Firmware := mkFirmware {
  limite_atual_db : float;
  modo_atual : Modo;
  historico : list float;
  indice_historico : Z;
  contador_alertas : Z;
  offset_dc : float;
  last_press : Z;
  estado_anterior : bool
}.

Definition estado_inicial : Firmware :=
  {| limite_atual_db := LIMITE_DB;
     modo_atual := MONITORAMENTO;
     historico := replicate (Z.to_nat TAMANHO_HISTORICO) F32.zero;
     indice_historico := 0;
     contador_alertas := 0;
     offset_dc := F32.zero;
     last_press := 0;
     estado_anterior := false |}.

(** ** What the firmware sends to its peripherals *)

(** Calls on the PWM block; slice and channel are those of the GPIO. *)
Inductive PwmOp :=
| pwm_set_wrap (gpio : Z) (wrap_val : Z)
| pwm_set_chan_level (gpio : Z) (level : Z)
| pwm_set_enabled (gpio : Z) (enabled : bool).

(** Text handed to [ssd1306_draw_string]: a literal or the result of one
    of the three [snprintf] formats of the source. *)
Inductive Texto :=
| Literal (s : string)
| TextoDb (db : float)           (* "%.1f dB" *)
| TextoLimite (limite : float)   (* "Limite: %.1f dB" *)
| TextoAlertas (n : Z).          (* "Alertas: %u" *)

(** Drawing calls on a zeroed frame buffer. *)
Inductive DrawOp :=
| ssd1306_draw_string (x y : Z) (t : Texto)
| ssd1306_set_pixel (x y : Z) (on : bool)
| ssd1306_draw_line (x0 y0 x1 y1 : Z) (on : bool).

(** What the hardware supplies during one iteration of the main loop. *)
Record Entradas := mkEntradas {
  microfone : nat -> Z;
  t_entrada : Z;
  t_saida : Z;
  gpio_botao_a : bool;
  gpio_botao_b : bool;
  joystick : Z
}.

(** What one iteration produces. *)
Record Saidas := mkSaidas {
  nivel_db : float;
  condicao : bool;
  pwm : list PwmOp;
  tela : list DrawOp
}.

(** ** Concrete instances used in the examples *)

(** A computable stand-in for [log10f]: the logarithm of the power of two
    just below the argument, [floor(log2 x) * 0.30103]. *)
Definition log10f_grosso (x : float) : float :=
  match x with
  | S754_zero _ => S754_infinity true
  | S754_infinity false => x
  | S754_finite false m e =>
      (F32.of_Z ((Zpos (digits2_pos m) + e - 1) * 30103) / F32.of_Z 100000)%f32
  | _ => S754_nan
  end.

(** One iteration entered at time [t] during which the microphone line
    stays at the reading [leitura]: no button pressed, joystick at rest. *)
Definition entrada_constante (leitura : Z) (t : Z) : Entradas :=
  mkEntradas (fun _ => leitura) t (t + 3) true true 2048.

(** A batch in which every sample is at full scale. *)
Definition amostras_cheias : nat -> Z := fun _ => 4095.

(** ** The functions of the source *)

Section Firmware.

(** [log10f] of the C library: IEEE-754 does not fix its results, so it
    is a parameter of the embedding. *)
Variable log10f : float -> float.

(** Width of the panel, a macro of [inc/ssd1306_i2c.h]. *)
Variable ssd1306_width : Z.

(** The read [array[i]].  In every state the device reaches the index is
    within the 128 cells; outside of them, where C gives no meaning to the
    access, the read yields 0.0 and the write of [atualizar_historico]
    does nothing. *)
Definition ler_historico (h : list float) (i : Z) : float :=
  default F32.zero (h !! Z.to_nat i).

(** [obter_valor_maximo(array, size)]. *)
Definition obter_valor_maximo (array : list float) (size : Z) : float :=
  fold_left
    (fun max i =>
       let x := ler_historico array (Z.of_nat i) in
       if (max <? x)%f32 then x else max)
    (seq 1 (Z.to_nat size - 1))
    (ler_historico array 0).

(** Body of the sampling loop of [ler_decibeis], on the pair
    ([offset_dc], [soma_quadrados]); [leitura] is what [adc_read]
    returned. *)
Definition amostrar (leitura : Z) (st : float * float) : float * float :=
  let '(offset, soma_quadrados) := st in
  let leitura_adc := wrap16 leitura in
  let tensao := ((F32.of_Z leitura_adc * F32.lit 33 10) / F32.of_Z 4096)%f32 in
  let offset := (F32.lit 95 100 * offset + F32.lit 5 100 * tensao)%f32 in
  let tensao_ac := ((tensao - offset) * F32.of_Z 10)%f32 in
  (offset, (soma_quadrados + tensao_ac * tensao_ac)%f32).

(** [for (int i = 0; i < AMOSTRAS; i++)], [n] iterations left;
    [adc i] is the result of the i-th [adc_read] of this call. *)
Fixpoint laco_amostras (n : nat) (adc : nat -> Z) (i : nat)
    (st : float * float) : float * float :=
  match n with
  | O => st
  | S n' => laco_amostras n' adc (S i) (amostrar (adc i) st)
  end.

Definition ler_decibeis (adc : nat -> Z) (s : Firmware) : float * Firmware :=
  let '(offset, soma_quadrados) :=
    laco_amostras (Z.to_nat AMOSTRAS) adc 0 (offset_dc s, F32.zero) in
  let rms := F32.sqrtf (soma_quadrados / F32.of_Z AMOSTRAS)%f32 in
  (F32.fmaxf (F32.of_Z 30)
     (F32.of_Z 20 * log10f (rms / CALIBRACAO + F32.lit 1 1000000000000))%f32,
   mkFirmware (limite_atual_db s) (modo_atual s) (historico s)
     (indice_historico s) (contador_alertas s) offset (last_press s)
     (estado_anterior s)).

Definition atualizar_historico (db : float) (s : Firmware) : Firmware :=
  mkFirmware (limite_atual_db s) (modo_atual s)
    (<[Z.to_nat (indice_historico s) := db]> (historico s))
    (wrap8 ((indice_historico s + 1) mod TAMANHO_HISTORICO))
    (contador_alertas s) (offset_dc s) (last_press s) (estado_anterior s).

Definition debounce_delay : Z := 200000.

(** [verificar_botoes]: [t_entrada] and [t_saida] are the two readings of
    [time_us_32], [gpio_a] and [gpio_b] the levels of the two pins (the
    buttons pull them low). *)
Definition verificar_botoes (t_entrada t_saida : Z) (gpio_a gpio_b : bool)
    (s : Firmware) : Firmware :=
  if wrap32 (wrap32 t_entrada - last_press s) <? debounce_delay then s
  else
    let l := limite_atual_db s in
    let l := if negb gpio_a
             then F32.fminf (F32.of_Z 120) (l + F32.of_Z 1)%f32 else l in
    let l := if negb gpio_b
             then F32.fmaxf (F32.of_Z 30) (l - F32.of_Z 1)%f32 else l in
    mkFirmware l (modo_atual s) (historico s) (indice_historico s)
      (contador_alertas s) (offset_dc s) (wrap32 t_saida) (estado_anterior s).

(** [verificar_joystick]: [leitura] is the reading of ADC input 1; the
    reading of input 2 made on the way out is discarded by the source. *)
Definition posicao_x (leitura : Z) : float :=
  (F32.of_Z (wrap16 leitura) / F32.of_Z 4096)%f32.

(** The assignment [modo_atual = m]. *)
Definition com_modo (m : Modo) (s : Firmware) : Firmware :=
  mkFirmware (limite_atual_db s) m (historico s) (indice_historico s)
    (contador_alertas s) (offset_dc s) (last_press s) (estado_anterior s).

Definition verificar_joystick (leitura : Z) (s : Firmware) : Firmware :=
  if (posicao_x leitura <? F32.lit 3 10)%f32 then com_modo MONITORAMENTO s
  else if (F32.lit 7 10 <? posicao_x leitura)%f32 then com_modo ESTATISTICAS s
  else s.

Definition acionar_buzzer (estado : bool) (s : Firmware)
  : Firmware * list PwmOp :=
  if Bool.eqb estado (estado_anterior s) then (s, [])
  else
    let com c :=
      mkFirmware (limite_atual_db s) (modo_atual s) (historico s)
        (indice_historico s) c (offset_dc s) (last_press s) estado in
    if estado then
      let wrap_val := 125000000 / 2500 / 16 in
      (com (if negb (estado_anterior s)
            then wrap32 (contador_alertas s + 1)
            else contador_alertas s),
       [pwm_set_wrap BUZZER_PIN wrap_val;
        pwm_set_chan_level BUZZER_PIN (wrap_val / 2);
        pwm_set_enabled BUZZER_PIN true])
    else
      (com (contador_alertas s), [pwm_set_enabled BUZZER_PIN false]).

(** [exibir_texto]: the lines go to [x = 5], 8 pixels apart. *)
Fixpoint exibir_linhas (y_pos : Z) (lines : list Texto) : list DrawOp :=
  match lines with
  | [] => []
  | t :: r => ssd1306_draw_string 5 y_pos t :: exibir_linhas (y_pos + 8) r
  end.

Definition exibir_texto (lines : list Texto) : list DrawOp :=
  exibir_linhas 0 lines.

Definition escala_grafico (nivel_maximo_db : float) : float :=
  if (F32.of_Z 40 <? nivel_maximo_db)%f32
  then (F32.of_Z 40 / nivel_maximo_db)%f32 else F32.of_Z 1.

Definition ponto_grafico (s : Firmware) (escala : float) (i : nat) : DrawOp :=
  let y :=
    40 - F32.to_int
           (ler_historico (historico s)
              ((indice_historico s + Z.of_nat i) mod TAMANHO_HISTORICO)
            * escala)%f32 in
  ssd1306_set_pixel (Z.of_nat i) y true.

Definition atualizar_display (db : float) (s : Firmware) : list DrawOp :=
  let texto_modo :=
    match modo_atual s with
    | MONITORAMENTO => Literal "Monitoramento"
    | ALERTA => Literal "Modo Alerta"
    | ESTATISTICAS => Literal "Estatisticas"
    end in
  [ssd1306_draw_string 5 0 (TextoDb db);
   ssd1306_draw_string 5 45 texto_modo;
   ssd1306_draw_string 5 55 (TextoLimite (limite_atual_db s))]
  ++
  match modo_atual s with
  | MONITORAMENTO =>
      let nivel_maximo_db :=
        obter_valor_maximo (historico s) TAMANHO_HISTORICO in
      let escala := escala_grafico nivel_maximo_db in
      (ponto_grafico s escala <$> seq 0 (Z.to_nat TAMANHO_HISTORICO))
      ++ [ssd1306_draw_line 0 15 (ssd1306_width - 1) 15 true;
          ssd1306_draw_line 0 43 (ssd1306_width - 1) 43 true]
  | _ => []
  end.

(** [desenhar_grafico], which [main] never calls: the same points with
    the fixed scale 0.8. *)
Definition desenhar_grafico (s : Firmware) : list DrawOp :=
  ponto_grafico s (F32.lit 8 10) <$> seq 0 (Z.to_nat TAMANHO_HISTORICO).

(** The condition computed by [main] on every iteration. *)
Definition alerta_cond (db : float) (s : Firmware) : bool :=
  (limite_atual_db s <? db)%f32 && negb (Modo_eqb (modo_atual s) ESTATISTICAS).

(** The composition of the frame at the end of an iteration of [main]. *)
Definition compor_tela (db : float) (alerta : bool) (s : Firmware)
  : list DrawOp :=
  if Modo_eqb (modo_atual s) ESTATISTICAS then
    exibir_texto [Literal "Modo Estatisticas";
                  TextoAlertas (contador_alertas s)]
  else if alerta then
    exibir_texto [Literal "  ALERTA!  "; Literal "Nivel maximo";
                  Literal " excedido!  "]
  else atualizar_display db s.

(** One iteration of [while (true)] in [main]. *)
Definition ciclo (e : Entradas) (s : Firmware) : Firmware * Saidas :=
  let '(db, s) := ler_decibeis (microfone e) s in
  let s := atualizar_historico db s in
  let s := verificar_botoes (t_entrada e) (t_saida e)
             (gpio_botao_a e) (gpio_botao_b e) s in
  let s := verificar_joystick (joystick e) s in
  let cond := alerta_cond db s in
  let '(s, ops) := acionar_buzzer cond s in
  (s, mkSaidas db cond ops (compor_tela db cond s)).

(** A run of the main loop from the state [s], one [Entradas] per
    iteration. *)
Fixpoint executar (s : Firmware) (es : list Entradas) : Firmware :=
  match es with
  | [] => s
  | e :: r => executar (fst (ciclo e s)) r
  end.

(** States of the running device. *)
Inductive alcancavel : Firmware -> Prop :=
| alc_inicial : alcancavel estado_inicial
| alc_ciclo e s : alcancavel s -> alcancavel (fst (ciclo e s)).

(** The alert conditions computed along a run, oldest first. *)
Fixpoint condicoes (es : list Entradas) (s : Firmware) : list bool :=
  match es with
  | [] => []
  | e :: r => condicao (snd (ciclo e s)) :: condicoes r (fst (ciclo e s))
  end.

(** Number of false-to-true transitions in [conds], [anterior] being the
    condition before the first one. *)
Fixpoint bordas_subida (anterior : bool) (conds : list bool) : Z :=
  match conds with
  | [] => 0
  | c :: r => (if negb anterior && c then 1 else 0) + bordas_subida c r
  end.

(** ** Definitions used to state the properties *)

(** The integers [lo, lo + n). *)
Fixpoint intervalo (lo : Z) (n : nat) : list Z :=
  match n with
  | O => []
  | S n' => lo :: intervalo (lo + 1) n'
  end.

(** The threshold adjustment as the specification words it, on the
    threshold in whole decibels: button A (pin low) adds 1 clamped to at
    most 120, then button B (pin low) subtracts 1 clamped to at least 30. *)
Definition ajuste_limite (gpio_a gpio_b : bool) (k : Z) : Z :=
  let k := if negb gpio_a then Z.min 120 (k + 1) else k in
  if negb gpio_b then Z.max 30 (k - 1) else k.

(** One call of [verificar_botoes]: the two timer readings and the levels
    of the two pins. *)
Record Chamada := mkChamada {
  ch_entrada : Z;
  ch_saida : Z;
  ch_gpio_a : bool;
  ch_gpio_b : bool
}.

Definition chamar_botoes (c : Chamada) (s : Firmware) : Firmware :=
  verificar_botoes (ch_entrada c) (ch_saida c) (ch_gpio_a c) (ch_gpio_b c) s.

Fixpoint executar_botoes (cs : list Chamada) (s : Firmware) : Firmware :=
  match cs with
  | [] => s
  | c :: r => executar_botoes r (chamar_botoes c s)
  end.

(** The joystick position as an exact fraction of full scale. *)
Definition posicao_exata (leitura : Z) : Q :=
  (inject_Z (wrap16 leitura) / 4096)%Q.

(** What the enumeration of the readings checks for one reading. *)
Definition joystick_confere (r : Z) : bool :=
  Bool.eqb (posicao_x r <? F32.lit 3 10)%f32 (r <=? 1228)
  && Bool.eqb (F32.lit 7 10 <? posicao_x r)%f32 (2868 <=? r)
  && match F32.valor (posicao_x r) with
     | Some q => Qeq_bool q (inject_Z r / 4096)
     | None => false
     end.

(** What the enumeration of the thresholds 30..120 checks for one value. *)
Definition limite_confere (k : Z) : bool :=
  F32.eqb_bits (F32.fminf (F32.of_Z 120) (F32.of_Z k + F32.of_Z 1)%f32)
               (F32.of_Z (Z.min 120 (k + 1)))
  && F32.eqb_bits (F32.fmaxf (F32.of_Z 30) (F32.of_Z k - F32.of_Z 1)%f32)
                  (F32.of_Z (Z.max 30 (k - 1)))
  && F32.leb (F32.of_Z 30) (F32.of_Z k)
  && F32.leb (F32.of_Z k) (F32.of_Z 120).

(** The history read as [atualizar_display] reads it: positions
    [(indice_historico + i) % TAMANHO_HISTORICO] for i = 0..127. *)
Definition leitura_cronologica (s : Firmware) : list float :=
  (fun i => ler_historico (historico s)
              ((indice_historico s + Z.of_nat i) mod TAMANHO_HISTORICO))
  <$> seq 0 (Z.to_nat TAMANHO_HISTORICO).

(** A sequence of pushes, oldest first. *)
Definition empurrar (vs : list float) (s : Firmware) : Firmware :=
  fold_left (fun s v => atualizar_historico v s) vs s.

(** The array has its 128 cells and the index points into it. *)
Definition anel_valido (s : Firmware) : Prop :=
  length (historico s) = Z.to_nat TAMANHO_HISTORICO /\
  0 <= indice_historico s < TAMANHO_HISTORICO.

(** The three screens as the specification describes them. *)
Definition tela_estatisticas (alertas : Z) : list DrawOp :=
  [ssd1306_draw_string 5 0 (Literal "Modo Estatisticas");
   ssd1306_draw_string 5 8 (TextoAlertas alertas)].

Definition tela_alerta : list DrawOp :=
  [ssd1306_draw_string 5 0 (Literal "  ALERTA!  ");
   ssd1306_draw_string 5 8 (Literal "Nivel maximo");
   ssd1306_draw_string 5 16 (Literal " excedido!  ")].

(** The pixel of the i-th level of the history, oldest first: row 40
    minus the integer part of [nivel * escala]. *)
Definition ponto_do_nivel (escala : float) (i : nat) (nivel : float) : DrawOp :=
  ssd1306_set_pixel (Z.of_nat i) (40 - F32.to_int (nivel * escala)%f32) true.

Definition tela_monitoramento (largura : Z) (db limite : float)
    (niveis : list float) (escala : float) : list DrawOp :=
  [ssd1306_draw_string 5 0 (TextoDb db);
   ssd1306_draw_string 5 45 (Literal "Monitoramento");
   ssd1306_draw_string 5 55 (TextoLimite limite)]
  ++ imap (ponto_do_nivel escala) niveis
  ++ [ssd1306_draw_line 0 15 (largura - 1) 15 true;
      ssd1306_draw_line 0 43 (largura - 1) 43 true].

(** The state after a level of 30.5 dB was pushed at power-up. *)
Definition estado_30_5 : Firmware :=
  atualizar_historico (F32.lit 61 2) estado_inicial.

(** The level estimator as the specification words it: the voltage of each
    raw sample for a full scale of [fundo] steps, the offset after each
    sample, the AC component of each sample, the RMS of the batch and the
    floored level. *)
Definition tensao_formula (fundo : Z) (raw : Z) : float :=
  ((F32.of_Z raw * F32.lit 33 10) / F32.of_Z fundo)%f32.

Fixpoint offsets_formula (offset : float) (tensoes : list float)
  : list float :=
  match tensoes with
  | [] => []
  | v :: r =>
      let o := (F32.lit 95 100 * offset + F32.lit 5 100 * v)%f32 in
      o :: offsets_formula o r
  end.

Definition ac_formula (v o : float) : float := ((v - o) * F32.of_Z 10)%f32.

Definition soma_quadrados_de (q : float) (acs : list float) : float :=
  fold_left (fun q a => (q + a * a)%f32) acs q.

Definition nivel_de_rms (rms : float) : float :=
  F32.fmaxf (F32.of_Z 30)
    (F32.of_Z 20
     * log10f (rms / F32.lit 2 100000 + F32.lit 1 1000000000000))%f32.

Definition nivel_formula (fundo : Z) (offset : float) (raws : list Z)
  : float :=
  let tensoes := tensao_formula fundo <$> raws in
  let acs := zip_with ac_formula tensoes (offsets_formula offset tensoes) in
  let rms := F32.sqrtf (soma_quadrados_de F32.zero acs / F32.of_Z 64)%f32 in
  nivel_de_rms rms.

(** The raw samples of one call: the first 64 values of the ADC, as the
    16-bit integers the code stores. *)
Definition amostras_lidas (adc : nat -> Z) (i : nat) (n : nat) : list Z :=
  (fun j => wrap16 (adc j)) <$> seq i n.

(** A float that is a zero or a finite number. *)
Definition finito (x : float) : bool :=
  match x with
  | S754_zero _ | S754_finite _ _ _ => true
  | _ => false
  end.

(** The value added to the ratio before the logarithm, [1e-12f]. *)
Definition epsilon_log : float := F32.lit 1 1000000000000.

(** Every sample of the call sits exactly on the offset tracked up to and
    including that sample. *)
Definition sobre_o_offset (adc : nat -> Z) (offset : float) : Prop :=
  forall i, (i < 64)%nat ->
    tensao_formula 4096 (wrap16 (adc i))
      = fst (laco_amostras (S i) adc 0 (offset, F32.zero)).

(** The step of the loop of [obter_valor_maximo]. *)
Definition maior (array : list float) (max : float) (i : nat) : float :=
  let x := ler_historico array (Z.of_nat i) in
  if (max <? x)%f32 then x else max.

(** The levels 1.0, 2.0, ..., 130.0, used as an example of pushes. *)
Definition niveis_exemplo : list float :=
  F32.of_Z <$> intervalo 1 (Z.to_nat 130).

(** The state in which [main] evaluates the alert condition: after the
    level was measured and stored and the inputs were polled. *)
Definition antes_do_alerta (e : Entradas) (s : Firmware) : Firmware :=
  verificar_joystick (joystick e)
    (verificar_botoes (t_entrada e) (t_saida e)
       (gpio_botao_a e) (gpio_botao_b e)
       (atualizar_historico (fst (ler_decibeis (microfone e) s))
          (snd (ler_decibeis (microfone e) s)))).

(** A state in which the counter shows 4294967295 alerts and the buzzer
    is silent. *)
Definition estado_contador_cheio : Firmware :=
  mkFirmware LIMITE_DB MONITORAMENTO
    (replicate (Z.to_nat TAMANHO_HISTORICO) F32.zero) 0
    4294967295 F32.zero 0 false.

(** ** Definitions used to state further properties *)

(** Calls of [verificar_botoes] of which each is entered at least 200 ms,
    and less than a full turn of the 32-bit timer, after the instant [T0]
    for the first and after the exit of the one before for the others. *)
Fixpoint espacadas (T0 : Z) (cs : list Chamada) : Prop :=
  match cs with
  | [] => True
  | c :: r =>
      debounce_delay <= ch_entrada c - T0 < 4294967296 /\
      espacadas (ch_saida c) r
  end.

(** The zone a reading of the 12-bit converter falls in: one end of the
    stick, the other end, or the dead zone. *)
Definition zona (leitura : Z) : option Modo :=
  if leitura <=? 1228 then Some MONITORAMENTO
  else if 2868 <=? leitura then Some ESTATISTICAS
  else None.

(** Successive calls of [verificar_joystick], one reading each. *)
Fixpoint executar_joystick (rs : list Z) (s : Firmware) : Firmware :=
  match rs with
  | [] => s
  | r :: rest => executar_joystick rest (verificar_joystick r s)
  end.

(** What a run sends to the PWM block, in order. *)
Fixpoint pwm_emitido (es : list Entradas) (s : Firmware) : list PwmOp :=
  match es with
  | [] => []
  | e :: r => pwm (snd (ciclo e s)) ++ pwm_emitido r (fst (ciclo e s))
  end.

(** The arguments of the calls of [pwm_set_enabled] among [ops]. *)
Definition habilitacoes (ops : list PwmOp) : list bool :=
  omap (fun op => match op with
                  | pwm_set_enabled _ b => Some b
                  | _ => None
                  end) ops.

(** The conditions of [conds] that differ from the one before them,
    [anterior] being the one before the first. *)
Fixpoint mudancas (anterior : bool) (conds : list bool) : list bool :=
  match conds with
  | [] => []
  | c :: r =>
      if Bool.eqb c anterior then mudancas anterior r
      else c :: mudancas c r
  end.

(** [l] is [b], [negb b], [b], ... *)
Fixpoint alternada (b : bool) (l : list bool) : Prop :=
  match l with
  | [] => True
  | x :: r => x = b /\ alternada (negb b) r
  end.

(** What the tone generator is sent when the alarm starts. *)
Definition pwm_inicio : list PwmOp :=
  [pwm_set_wrap BUZZER_PIN 3125;
   pwm_set_chan_level BUZZER_PIN 1562;
   pwm_set_enabled BUZZER_PIN true].

(** The levels measured along a run, oldest first. *)
Fixpoint niveis (es : list Entradas) (s : Firmware) : list float :=
  match es with
  | [] => []
  | e :: r => nivel_db (snd (ciclo e s)) :: niveis r (fst (ciclo e s))
  end.

(** A cell of the history holds the 0.0 of power-up or a level of at
    least 30.0. *)
Definition nivel_ok (x : float) : Prop :=
  x = F32.zero \/ F32.leb (F32.of_Z 30) x = true.

(** The columns of the pixels set by [ops]. *)
Definition colunas (ops : list DrawOp) : list Z :=
  omap (fun op => match op with
                  | ssd1306_set_pixel x _ _ => Some x
                  | _ => None
                  end) ops.

(** * Properties *)

(** ** The alert state machine *)

Lemma acionar_buzzer_inalterado (estado : bool) (s : Firmware) :
  estado = estado_anterior s -> acionar_buzzer estado s = (s, []).
Proof.
  intros ->. unfold acionar_buzzer. now rewrite Bool.eqb_reflx.
Qed.

Lemma acionar_buzzer_campos (estado : bool) (s : Firmware) :
  let s' := fst (acionar_buzzer estado s) in
  estado_anterior s' = estado /\
  contador_alertas s' =
    (if negb (estado_anterior s) && estado
     then wrap32 (contador_alertas s + 1) else contador_alertas s) /\
  limite_atual_db s' = limite_atual_db s /\
  modo_atual s' = modo_atual s /\
  historico s' = historico s /\
  indice_historico s' = indice_historico s /\
  offset_dc s' = offset_dc s /\
  last_press s' = last_press s.
Proof.
  unfold acionar_buzzer.
  destruct estado, (estado_anterior s) eqn:E; cbn; rewrite ?E; auto 10.
Qed.

(** *** Which globals each function writes *)

Lemma ler_decibeis_campos (adc : nat -> Z) (s : Firmware) :
  let s' := snd (ler_decibeis adc s) in
  limite_atual_db s' = limite_atual_db s /\
  modo_atual s' = modo_atual s /\
  historico s' = historico s /\
  indice_historico s' = indice_historico s /\
  contador_alertas s' = contador_alertas s /\
  last_press s' = last_press s /\
  estado_anterior s' = estado_anterior s.
Proof.
  unfold ler_decibeis.
  destruct (laco_amostras _ _ _ _) as [o q]; cbn; auto 10.
Qed.

Lemma verificar_botoes_campos t1 t2 a b (s : Firmware) :
  let s' := verificar_botoes t1 t2 a b s in
  modo_atual s' = modo_atual s /\
  historico s' = historico s /\
  indice_historico s' = indice_historico s /\
  contador_alertas s' = contador_alertas s /\
  offset_dc s' = offset_dc s /\
  estado_anterior s' = estado_anterior s.
Proof.
  unfold verificar_botoes.
  destruct (_ <? debounce_delay); cbn; auto 10.
Qed.

Lemma verificar_joystick_campos leitura (s : Firmware) :
  let s' := verificar_joystick leitura s in
  limite_atual_db s' = limite_atual_db s /\
  historico s' = historico s /\
  indice_historico s' = indice_historico s /\
  contador_alertas s' = contador_alertas s /\
  offset_dc s' = offset_dc s /\
  last_press s' = last_press s /\
  estado_anterior s' = estado_anterior s.
Proof.
  unfold verificar_joystick.
  destruct (F32.ltb (posicao_x leitura) _); [cbn; auto 10|].
  destruct (F32.ltb _ (posicao_x leitura)); cbn; auto 10.
Qed.

Lemma ciclo_desdobrado (e : Entradas) (s : Firmware) :
  let db := fst (ler_decibeis (microfone e) s) in
  let s1 := antes_do_alerta e s in
  let c := alerta_cond db s1 in
  ciclo e s =
    (fst (acionar_buzzer c s1),
     mkSaidas db c (snd (acionar_buzzer c s1))
       (compor_tela db c (fst (acionar_buzzer c s1)))).
Proof.
  unfold ciclo, antes_do_alerta.
  destruct (ler_decibeis (microfone e) s) as [db s0]; cbn.
  destruct (acionar_buzzer _ _) as [s2 ops]; reflexivity.
Qed.

Lemma antes_do_alerta_buzzer (e : Entradas) (s : Firmware) :
  estado_anterior (antes_do_alerta e s) = estado_anterior s /\
  contador_alertas (antes_do_alerta e s) = contador_alertas s.
Proof.
  unfold antes_do_alerta.
  pose proof (verificar_joystick_campos (joystick e)
    (verificar_botoes (t_entrada e) (t_saida e)
       (gpio_botao_a e) (gpio_botao_b e)
       (atualizar_historico (fst (ler_decibeis (microfone e) s))
          (snd (ler_decibeis (microfone e) s))))) as J.
  pose proof (verificar_botoes_campos (t_entrada e) (t_saida e)
       (gpio_botao_a e) (gpio_botao_b e)
       (atualizar_historico (fst (ler_decibeis (microfone e) s))
          (snd (ler_decibeis (microfone e) s)))) as B.
  pose proof (ler_decibeis_campos (microfone e) s) as L.
  cbn zeta in J, B, L.
  destruct J as (_ & _ & _ & J1 & _ & _ & J2).
  destruct B as (_ & _ & _ & B1 & _ & B2).
  destruct L as (_ & _ & _ & _ & L1 & _ & L2).
  rewrite J1, J2, B1, B2. cbn. auto.
Qed.

Lemma ciclo_contador (e : Entradas) (s : Firmware) :
  let c := condicao (snd (ciclo e s)) in
  estado_anterior (fst (ciclo e s)) = c /\
  contador_alertas (fst (ciclo e s)) =
    (if negb (estado_anterior s) && c
     then wrap32 (contador_alertas s + 1) else contador_alertas s).
Proof.
  rewrite ciclo_desdobrado. cbn.
  destruct (acionar_buzzer_campos
              (alerta_cond (fst (ler_decibeis (microfone e) s))
                 (antes_do_alerta e s))
              (antes_do_alerta e s)) as (A1 & A2 & _).
  destruct (antes_do_alerta_buzzer e s) as [E1 E2].
  cbn zeta in A1, A2. rewrite A1, A2, E1, E2. auto.
Qed.

Lemma bordas_subida_nonneg (conds : list bool) :
  forall anterior, 0 <= bordas_subida anterior conds.
Proof.
  induction conds as [|c r IH]; intros a; cbn; [lia|].
  specialize (IH c). destruct (negb a && c); lia.
Qed.

Lemma wrap32_range z : 0 <= wrap32 z < 4294967296.
Proof. unfold wrap32. apply Z.mod_pos_bound. lia. Qed.

Lemma wrap32_small z : 0 <= z < 4294967296 -> wrap32 z = z.
Proof. unfold wrap32. intros. apply Z.mod_small. assumption. Qed.

Lemma executar_cons e r s : executar s (e :: r) = executar (fst (ciclo e s)) r.
Proof. reflexivity. Qed.

Lemma condicoes_cons e r s :
  condicoes (e :: r) s
    = condicao (snd (ciclo e s)) :: condicoes r (fst (ciclo e s)).
Proof. reflexivity. Qed.

Lemma executar_contador (es : list Entradas) :
  forall s,
    0 <= contador_alertas s < 4294967296 ->
    contador_alertas (executar s es) =
      wrap32 (contador_alertas s
              + bordas_subida (estado_anterior s) (condicoes es s)).
Proof.
  induction es as [|e r IH]; intros s Hs.
  - cbn [executar condicoes bordas_subida]. rewrite Z.add_0_r.
    symmetry. now apply wrap32_small.
  - rewrite executar_cons, condicoes_cons. cbn [bordas_subida].
    destruct (ciclo_contador e s) as [Ha Hc]. cbn zeta in Ha, Hc.
    rewrite IH.
    + rewrite Ha, Hc.
      destruct (negb (estado_anterior s) && condicao (snd (ciclo e s))).
      * unfold wrap32. rewrite Zplus_mod_idemp_l. f_equal. lia.
      * f_equal.
    + rewrite Hc. destruct (negb _ && _); [apply wrap32_range | assumption].
Qed.

(** Counterexample to C1 as stated: [contador_alertas] is an [unsigned int];
    on the false-to-true transition that follows 4294967295 alerts it goes
    back to 0 instead of growing by 1. *)
Lemma contador_alertas_transborda :
  estado_anterior estado_contador_cheio = false /\
  contador_alertas (fst (acionar_buzzer true estado_contador_cheio)) = 0 /\
  contador_alertas (fst (acionar_buzzer true estado_contador_cheio))
    <> contador_alertas estado_contador_cheio + 1.
Proof. repeat split; discriminate. Qed.

(** C1, amended: the alert counter is edge-triggered.  Along every sequence
    of cycles it grows by the number of false-to-true transitions of the
    alert condition, modulo 2^32 (and exactly as long as the sum stays below
    2^32); on one cycle it becomes [contador_alertas + 1] modulo 2^32 when
    the condition goes from false to true and is unchanged on every other
    cycle; and when the condition equals that of the previous cycle
    [acionar_buzzer] changes nothing and sends nothing to the PWM block. *)
Theorem contador_alertas_por_borda :
  forall (es : list Entradas) (s : Firmware),
    0 <= contador_alertas s < 4294967296 ->
    let n := bordas_subida (estado_anterior s) (condicoes es s) in
    contador_alertas (executar s es) = wrap32 (contador_alertas s + n) /\
    (contador_alertas s + n < 4294967296 ->
     contador_alertas (executar s es) = contador_alertas s + n) /\
    (forall e,
       contador_alertas (fst (ciclo e s)) =
         if negb (estado_anterior s) && condicao (snd (ciclo e s))
         then wrap32 (contador_alertas s + 1) else contador_alertas s) /\
    (forall estado,
       estado = estado_anterior s -> acionar_buzzer estado s = (s, [])).
Proof.
  intros es s Hs n. repeat split.
  - now apply executar_contador.
  - intros Hn. rewrite executar_contador by assumption.
    apply wrap32_small. pose proof (bordas_subida_nonneg (condicoes es s)
      (estado_anterior s)). fold n. lia.
  - intros e. apply (ciclo_contador e s).
  - intros estado. apply acionar_buzzer_inalterado.
Qed.

(** ** Enumeration over an interval *)

Lemma forallb_intervalo (P : Z -> bool) (n : nat) :
  forall lo,
    forallb P (intervalo lo n) = true ->
    forall z, lo <= z < lo + Z.of_nat n -> P z = true.
Proof.
  induction n as [|n IH]; intros lo H z Hz; [lia|].
  cbn [intervalo forallb] in H. apply andb_prop in H as [H0 H].
  destruct (Z.eq_dec z lo) as [->|Hne]; [assumption|].
  apply (IH (lo + 1) H). lia.
Qed.

Lemma eqb_bits_eq (x y : float) : F32.eqb_bits x y = true -> x = y.
Proof.
  destruct x as [a|a| |a m e], y as [b|b| |b n f]; cbn; try discriminate;
    try reflexivity.
  - intros H. apply Bool.eqb_prop in H. now subst.
  - intros H. apply Bool.eqb_prop in H. now subst.
  - intros H. apply andb_prop in H as [H He]. apply andb_prop in H as [Hs Hm].
    apply Bool.eqb_prop in Hs. apply Pos.eqb_eq in Hm. apply Z.eqb_eq in He.
    now subst.
Qed.

(** ** The mode selector *)

Lemma wrap16_range z : 0 <= wrap16 z < 65536.
Proof. unfold wrap16. apply Z.mod_pos_bound. lia. Qed.

Lemma wrap16_small z : 0 <= z < 65536 -> wrap16 z = z.
Proof. unfold wrap16. intros. now apply Z.mod_small. Qed.

(** The 4096 readings of the 12-bit converter, one by one. *)
Lemma joystick_enumerado :
  forallb joystick_confere (intervalo 0 (Z.to_nat 4096)) = true.
Proof. vm_cast_no_check (eq_refl true). Qed.

Lemma joystick_limiares (leitura : Z) :
  0 <= leitura < 4096 ->
  (posicao_x leitura <? F32.lit 3 10)%f32 = (leitura <=? 1228) /\
  (F32.lit 7 10 <? posicao_x leitura)%f32 = (2868 <=? leitura) /\
  exists q, F32.valor (posicao_x leitura) = Some q /\
            (q == posicao_exata leitura)%Q.
Proof.
  intros R.
  pose proof (forallb_intervalo _ _ _ joystick_enumerado leitura) as H.
  unfold joystick_confere in H.
  assert (Hr : 0 <= leitura < 0 + Z.of_nat (Z.to_nat 4096)) by lia.
  specialize (H Hr). apply andb_prop in H as [H Hq].
  apply andb_prop in H as [H1 H2].
  apply Bool.eqb_prop in H1. apply Bool.eqb_prop in H2.
  repeat split; try assumption.
  destruct (F32.valor (posicao_x leitura)) as [q|]; [|discriminate].
  exists q. split; [reflexivity|]. unfold posicao_exata.
  rewrite wrap16_small by lia. now apply Qeq_bool_eq.
Qed.

Lemma posicao_exata_abaixo leitura :
  0 <= leitura < 4096 ->
  (posicao_exata leitura < 3 # 10)%Q <-> leitura <= 1228.
Proof.
  intros R. unfold posicao_exata. rewrite wrap16_small by lia.
  unfold Qlt, Qdiv, Qmult, Qinv, inject_Z. cbn. lia.
Qed.

Lemma posicao_exata_acima leitura :
  0 <= leitura < 4096 ->
  (7 # 10 < posicao_exata leitura)%Q <-> 2868 <= leitura.
Proof.
  intros R. unfold posicao_exata. rewrite wrap16_small by lia.
  unfold Qlt, Qdiv, Qmult, Qinv, inject_Z. cbn. lia.
Qed.

Lemma verificar_joystick_modo (leitura : Z) (s : Firmware) :
  0 <= leitura < 4096 ->
  verificar_joystick leitura s =
    if leitura <=? 1228 then com_modo MONITORAMENTO s
    else if 2868 <=? leitura then com_modo ESTATISTICAS s
    else s.
Proof.
  intros R. unfold verificar_joystick.
  destruct (joystick_limiares leitura R) as (-> & -> & _). reflexivity.
Qed.

(** Whatever the reading, the mode after the call is Monitoring,
    Statistics or the mode before it. *)
Lemma verificar_joystick_tres_casos (leitura : Z) (s : Firmware) :
  modo_atual (verificar_joystick leitura s) = MONITORAMENTO \/
  modo_atual (verificar_joystick leitura s) = ESTATISTICAS \/
  modo_atual (verificar_joystick leitura s) = modo_atual s.
Proof.
  unfold verificar_joystick.
  destruct (F32.ltb (posicao_x leitura) _); [now left|].
  destruct (F32.ltb _ (posicao_x leitura)); [right; now left|].
  right; now right.
Qed.

Lemma verificar_joystick_nunca_alerta (leitura : Z) (s : Firmware) :
  modo_atual s <> ALERTA -> modo_atual (verificar_joystick leitura s) <> ALERTA.
Proof.
  intros H.
  destruct (verificar_joystick_tres_casos leitura s) as [E|[E|E]];
    rewrite E; [discriminate | discriminate | assumption].
Qed.

Lemma ciclo_modo (e : Entradas) (s : Firmware) :
  modo_atual (fst (ciclo e s)) = modo_atual (verificar_joystick (joystick e) s).
Proof.
  rewrite ciclo_desdobrado. cbn zeta. cbn [fst].
  destruct (acionar_buzzer_campos
              (alerta_cond (fst (ler_decibeis (microfone e) s))
                 (antes_do_alerta e s))
              (antes_do_alerta e s)) as (_ & _ & _ & M & _).
  cbn zeta in M. rewrite M. unfold antes_do_alerta, verificar_joystick.
  destruct (F32.ltb (posicao_x (joystick e)) _); [reflexivity|].
  destruct (F32.ltb _ (posicao_x (joystick e))); [reflexivity|].
  match goal with
  | |- modo_atual (verificar_botoes ?a ?b ?c ?d ?x) = _ =>
      destruct (verificar_botoes_campos a b c d x) as (-> & _)
  end.
  cbn [atualizar_historico modo_atual].
  apply (ler_decibeis_campos (microfone e) s).
Qed.

(** The states of the running device are those a run from power-up ends
    in. *)
Lemma executar_alcancavel (es : list Entradas) :
  forall s, alcancavel s -> alcancavel (executar s es).
Proof.
  induction es as [|e r IH]; intros s H; [assumption|].
  rewrite executar_cons. apply IH. now constructor.
Qed.

Lemma alcancavel_executar (s : Firmware) :
  alcancavel s -> exists es, s = executar estado_inicial es.
Proof.
  induction 1 as [|e s _ [es ->]].
  - now exists [].
  - exists (es ++ [e]). clear.
    generalize estado_inicial. induction es as [|x r IH]; intros s0.
    + reflexivity.
    + cbn [app]. rewrite !executar_cons. apply IH.
Qed.

Lemma executar_nunca_alerta (es : list Entradas) :
  forall s, modo_atual s <> ALERTA -> modo_atual (executar s es) <> ALERTA.
Proof.
  induction es as [|e r IH]; intros s H; [assumption|].
  rewrite executar_cons. apply IH.
  rewrite ciclo_modo. now apply verificar_joystick_nunca_alerta.
Qed.

(** C9: with p the reading of the 12-bit converter as a fraction of its
    4096 steps (the float the code computes is exactly that fraction),
    p < 0.3 sets the mode to Monitoring, p > 0.7 sets it to Statistics,
    whatever the mode was and without touching any other global, and a
    position in the dead zone [0.3, 0.7] leaves the state, hence the mode,
    as it is; consequently no run from power-up, the mode being
    Monitoring, ever reaches the mode Alert, whatever the inputs. *)
Theorem verificar_joystick_zonas :
  forall (leitura : Z) (s : Firmware) (es : list Entradas),
    0 <= leitura < 4096 ->
    (exists q, F32.valor (posicao_x leitura) = Some q /\
               (q == posicao_exata leitura)%Q) /\
    ((posicao_exata leitura < 3 # 10)%Q ->
     modo_atual (verificar_joystick leitura s) = MONITORAMENTO /\
     verificar_joystick leitura s
       = mkFirmware (limite_atual_db s) MONITORAMENTO (historico s)
           (indice_historico s) (contador_alertas s) (offset_dc s)
           (last_press s) (estado_anterior s)) /\
    ((7 # 10 < posicao_exata leitura)%Q ->
     modo_atual (verificar_joystick leitura s) = ESTATISTICAS /\
     verificar_joystick leitura s
       = mkFirmware (limite_atual_db s) ESTATISTICAS (historico s)
           (indice_historico s) (contador_alertas s) (offset_dc s)
           (last_press s) (estado_anterior s)) /\
    ((3 # 10 <= posicao_exata leitura)%Q /\ (posicao_exata leitura <= 7 # 10)%Q ->
     modo_atual (verificar_joystick leitura s) = modo_atual s /\
     verificar_joystick leitura s = s) /\
    modo_atual estado_inicial = MONITORAMENTO /\
    modo_atual (executar estado_inicial es) <> ALERTA.
Proof.
  intros leitura s es R. split; [now apply joystick_limiares|].
  split; [|split; [|split; [|split]]].
  - intros H. apply posicao_exata_abaixo in H; [|assumption].
    rewrite verificar_joystick_modo by assumption.
    destruct (Z.leb_spec leitura 1228); [now split|lia].
  - intros H. apply posicao_exata_acima in H; [|assumption].
    rewrite verificar_joystick_modo by assumption.
    destruct (Z.leb_spec leitura 1228); [lia|].
    destruct (Z.leb_spec 2868 leitura); [now split|lia].
  - intros [H1 H2]. rewrite verificar_joystick_modo by assumption.
    apply Qle_not_lt in H1. apply Qle_not_lt in H2.
    rewrite posicao_exata_abaixo in H1 by assumption.
    rewrite posicao_exata_acima in H2 by assumption.
    destruct (Z.leb_spec leitura 1228); [lia|].
    destruct (Z.leb_spec 2868 leitura); [lia|now split].
  - reflexivity.
  - apply executar_nunca_alerta. discriminate.
Qed.

(** ** The threshold controller *)

Lemma limites_enumerados :
  forallb limite_confere (intervalo 30 (Z.to_nat 91)) = true.
Proof. vm_compute. reflexivity. Qed.

Lemma limite_inteiro (k : Z) :
  30 <= k <= 120 ->
  F32.fminf (F32.of_Z 120) (F32.of_Z k + F32.of_Z 1)%f32
    = F32.of_Z (Z.min 120 (k + 1)) /\
  F32.fmaxf (F32.of_Z 30) (F32.of_Z k - F32.of_Z 1)%f32
    = F32.of_Z (Z.max 30 (k - 1)) /\
  F32.leb (F32.of_Z 30) (F32.of_Z k) = true /\
  F32.leb (F32.of_Z k) (F32.of_Z 120) = true.
Proof.
  intros Hk.
  assert (H : limite_confere k = true).
  { apply (forallb_intervalo _ _ _ limites_enumerados). lia. }
  unfold limite_confere in H.
  apply andb_prop in H as [H H4]. apply andb_prop in H as [H H3].
  apply andb_prop in H as [H1 H2].
  apply eqb_bits_eq in H1. apply eqb_bits_eq in H2. auto.
Qed.

Lemma ajuste_limite_range a b k :
  30 <= k <= 120 -> 30 <= ajuste_limite a b k <= 120.
Proof. unfold ajuste_limite. destruct a, b; cbn; lia. Qed.

(** A call either is stopped by the debounce gate or updates both the
    threshold and the shared timestamp. *)
Lemma verificar_botoes_barrado t1 t2 a b (s : Firmware) :
  wrap32 (wrap32 t1 - last_press s) < debounce_delay ->
  verificar_botoes t1 t2 a b s = s.
Proof.
  intros H. unfold verificar_botoes.
  destruct (Z.ltb_spec (wrap32 (wrap32 t1 - last_press s)) debounce_delay);
    [reflexivity | lia].
Qed.

Lemma verificar_botoes_aceito t1 t2 a b (s : Firmware) (k : Z) :
  debounce_delay <= wrap32 (wrap32 t1 - last_press s) ->
  30 <= k <= 120 ->
  limite_atual_db s = F32.of_Z k ->
  limite_atual_db (verificar_botoes t1 t2 a b s)
    = F32.of_Z (ajuste_limite a b k) /\
  last_press (verificar_botoes t1 t2 a b s) = wrap32 t2.
Proof.
  intros H Hk Hl. unfold verificar_botoes.
  destruct (Z.ltb_spec (wrap32 (wrap32 t1 - last_press s)) debounce_delay);
    [lia|].
  cbn [limite_atual_db last_press]. split; [|reflexivity].
  rewrite Hl. unfold ajuste_limite.
  destruct a; cbn [negb].
  - destruct b; cbn [negb]; [reflexivity|]. now apply limite_inteiro.
  - destruct (limite_inteiro k Hk) as (-> & _).
    destruct b; cbn [negb]; [reflexivity|]. apply limite_inteiro. lia.
Qed.

Lemma verificar_botoes_inteiro t1 t2 a b (s : Firmware) :
  (exists k, 30 <= k <= 120 /\ limite_atual_db s = F32.of_Z k) ->
  exists k, 30 <= k <= 120 /\
            limite_atual_db (verificar_botoes t1 t2 a b s) = F32.of_Z k.
Proof.
  intros (k & Hk & Hl).
  destruct (Z.lt_ge_cases (wrap32 (wrap32 t1 - last_press s)) debounce_delay)
    as [G|G].
  - rewrite verificar_botoes_barrado by assumption. eauto.
  - exists (ajuste_limite a b k). split; [now apply ajuste_limite_range|].
    now apply verificar_botoes_aceito.
Qed.

Lemma ciclo_limite (e : Entradas) (s : Firmware) :
  limite_atual_db (fst (ciclo e s)) =
    limite_atual_db
      (verificar_botoes (t_entrada e) (t_saida e)
         (gpio_botao_a e) (gpio_botao_b e)
         (atualizar_historico (fst (ler_decibeis (microfone e) s))
            (snd (ler_decibeis (microfone e) s)))).
Proof.
  rewrite ciclo_desdobrado. cbn.
  destruct (acionar_buzzer_campos
              (alerta_cond (fst (ler_decibeis (microfone e) s))
                 (antes_do_alerta e s))
              (antes_do_alerta e s)) as (_ & _ & L & _).
  cbn zeta in L. rewrite L. unfold antes_do_alerta.
  apply verificar_joystick_campos.
Qed.

Lemma alcancavel_limite_inteiro (s : Firmware) :
  alcancavel s ->
  exists k, 30 <= k <= 120 /\ limite_atual_db s = F32.of_Z k.
Proof.
  induction 1 as [|e s _ IH].
  - exists 100. split; [lia|reflexivity].
  - rewrite ciclo_limite. apply verificar_botoes_inteiro.
    cbn. destruct (ler_decibeis_campos (microfone e) s) as (-> & _).
    assumption.
Qed.

(** C5: the threshold of every state the device reaches is a whole number
    of decibels between 30.0 and 120.0, starting at 100.0; a call of
    [verificar_botoes] that passes the debounce gate adds exactly 1.0
    clamped to at most 120.0 when button A is down, then subtracts exactly
    1.0 clamped to at least 30.0 when button B is down, both in the same
    call when both are down. *)
Theorem limite_atual_db_entre_30_e_120 :
  forall (s : Firmware),
    alcancavel s ->
    limite_atual_db estado_inicial = F32.of_Z 100 /\
    F32.leb (F32.of_Z 30) (limite_atual_db s) = true /\
    F32.leb (limite_atual_db s) (F32.of_Z 120) = true /\
    exists k,
      30 <= k <= 120 /\ limite_atual_db s = F32.of_Z k /\
      forall t1 t2 a b,
        debounce_delay <= wrap32 (wrap32 t1 - last_press s) ->
        limite_atual_db (verificar_botoes t1 t2 a b s)
          = F32.of_Z (ajuste_limite a b k) /\
        30 <= ajuste_limite a b k <= 120 /\
        ajuste_limite false true k = Z.min 120 (k + 1) /\
        ajuste_limite true false k = Z.max 30 (k - 1) /\
        ajuste_limite false false k = Z.max 30 (Z.min 120 (k + 1) - 1).
Proof.
  intros s Hs. destruct (alcancavel_limite_inteiro s Hs) as (k & Hk & Hl).
  split; [reflexivity|].
  destruct (limite_inteiro k Hk) as (_ & _ & L1 & L2).
  rewrite Hl. repeat split; try assumption.
  exists k. repeat split; try tauto.
  - now apply verificar_botoes_aceito.
  - apply ajuste_limite_range; assumption.
  - apply ajuste_limite_range; assumption.
Qed.

(** *** Debounce *)

Lemma wrap32_diferenca (a b : Z) :
  0 <= b - a < 4294967296 -> wrap32 (wrap32 b - wrap32 a) = b - a.
Proof.
  intros H. unfold wrap32. rewrite <- Zminus_mod. now apply Z.mod_small.
Qed.

Lemma verificar_botoes_last_press t1 t2 a b (s : Firmware) :
  debounce_delay <= wrap32 (wrap32 t1 - last_press s) ->
  last_press (verificar_botoes t1 t2 a b s) = wrap32 t2.
Proof.
  intros H. unfold verificar_botoes.
  destruct (Z.ltb_spec (wrap32 (wrap32 t1 - last_press s)) debounce_delay);
    [lia | reflexivity].
Qed.

(** A call entered less than 200 ms after the instant recorded in
    [last_press] is stopped. *)
Lemma verificar_botoes_janela (T0 T : Z) t2 a b (s : Firmware) :
  last_press s = wrap32 T0 ->
  0 <= T - T0 < debounce_delay ->
  verificar_botoes T t2 a b s = s.
Proof.
  intros Hl Hd. apply verificar_botoes_barrado.
  rewrite Hl, wrap32_diferenca; unfold debounce_delay in *; lia.
Qed.

Lemma executar_botoes_janela (T0 : Z) (cs : list Chamada) (s : Firmware) :
  last_press s = wrap32 T0 ->
  Forall (fun c => 0 <= ch_entrada c - T0 < debounce_delay) cs ->
  executar_botoes cs s = s.
Proof.
  intros Hl H. induction H as [|c r Hc _ IH]; cbn; [reflexivity|].
  unfold chamar_botoes. rewrite (verificar_botoes_janela T0) by assumption.
  exact IH.
Qed.

Lemma ajuste_limite_passo a b k :
  30 <= k <= 120 -> k - 1 <= ajuste_limite a b k <= k + 1.
Proof. unfold ajuste_limite. destruct a, b; cbn; lia. Qed.

Lemma verificar_botoes_passo t1 t2 a b (s : Firmware) (k : Z) :
  30 <= k <= 120 ->
  limite_atual_db s = F32.of_Z k ->
  exists k', limite_atual_db (verificar_botoes t1 t2 a b s) = F32.of_Z k' /\
             k - 1 <= k' <= k + 1.
Proof.
  intros Hk Hl.
  destruct (Z.lt_ge_cases (wrap32 (wrap32 t1 - last_press s)) debounce_delay)
    as [G|G].
  - rewrite verificar_botoes_barrado by assumption.
    exists k. split; [assumption|lia].
  - exists (ajuste_limite a b k). split.
    + now apply verificar_botoes_aceito.
    + now apply ajuste_limite_passo.
Qed.

(** C6: both buttons share one 200 ms debounce window.  A call that is
    acted upon stores its exit time in the one [last_press], whichever
    buttons are down; a call entered less than 200 ms after the instant in
    [last_press] changes nothing; and two calls entered less than 200 ms
    apart produce at most one adjustment between them: the first leaves the
    state as it was or the second does, and after both the threshold is
    within one step of 1.0 of what it was before. *)
Theorem debounce_compartilhado :
  forall (s : Firmware) (c1 c2 : Chamada) (T0 : Z),
    ch_entrada c1 <= ch_saida c1 <= ch_entrada c2 ->
    ch_entrada c2 - ch_entrada c1 < debounce_delay ->
    (debounce_delay <= wrap32 (wrap32 (ch_entrada c1) - last_press s) ->
     last_press (chamar_botoes c1 s) = wrap32 (ch_saida c1)) /\
    (last_press s = wrap32 T0 ->
     0 <= ch_entrada c1 - T0 < debounce_delay ->
     chamar_botoes c1 s = s) /\
    (chamar_botoes c1 s = s \/
     chamar_botoes c2 (chamar_botoes c1 s) = chamar_botoes c1 s) /\
    (forall k,
       30 <= k <= 120 ->
       limite_atual_db s = F32.of_Z k ->
       exists k',
         limite_atual_db (chamar_botoes c2 (chamar_botoes c1 s)) = F32.of_Z k'
         /\ k - 1 <= k' <= k + 1).
Proof.
  intros s c1 c2 T0 Hord Hd.
  assert (U : chamar_botoes c1 s = s \/
              chamar_botoes c2 (chamar_botoes c1 s) = chamar_botoes c1 s).
  { destruct (Z.lt_ge_cases
                (wrap32 (wrap32 (ch_entrada c1) - last_press s))
                debounce_delay) as [G|G].
    - left. now apply verificar_botoes_barrado.
    - right. unfold chamar_botoes at 1.
      apply (verificar_botoes_janela (ch_saida c1)).
      + now apply verificar_botoes_last_press.
      + lia. }
  split; [|split; [|split]].
  - apply verificar_botoes_last_press.
  - intros Hl Hw. now apply (verificar_botoes_janela T0).
  - exact U.
  - intros k Hk Hl. destruct U as [E|E]; rewrite E.
    + now apply verificar_botoes_passo.
    + now apply verificar_botoes_passo.
Qed.

(** C10: a call of [verificar_botoes] that passes the gate stores its exit
    time in [last_press] even when no button is down, the threshold being
    then unchanged; so after any call that passed the gate, every call
    entered within the next 200 ms leaves the state untouched whatever the
    buttons, and a later call that passes the gate in its turn is entered
    at least 200 ms after the exit of the first. *)
Theorem debounce_sem_botao :
  forall (s : Firmware) (c1 : Chamada) (cs : list Chamada) (c2 : Chamada),
    debounce_delay <= wrap32 (wrap32 (ch_entrada c1) - last_press s) ->
    last_press (chamar_botoes c1 s) = wrap32 (ch_saida c1) /\
    (ch_gpio_a c1 = true -> ch_gpio_b c1 = true ->
     limite_atual_db (chamar_botoes c1 s) = limite_atual_db s) /\
    (Forall (fun c => 0 <= ch_entrada c - ch_saida c1 < debounce_delay) cs ->
     executar_botoes cs (chamar_botoes c1 s) = chamar_botoes c1 s) /\
    (ch_saida c1 <= ch_entrada c2 ->
     debounce_delay
       <= wrap32 (wrap32 (ch_entrada c2) - last_press (chamar_botoes c1 s)) ->
     debounce_delay <= ch_entrada c2 - ch_saida c1).
Proof.
  intros s c1 cs c2 G.
  assert (L : last_press (chamar_botoes c1 s) = wrap32 (ch_saida c1))
    by now apply verificar_botoes_last_press.
  split; [exact L|]. split; [|split].
  - intros Ha Hb. unfold chamar_botoes, verificar_botoes. rewrite Ha, Hb.
    destruct (_ <? debounce_delay); reflexivity.
  - intros H. now apply (executar_botoes_janela (ch_saida c1)).
  - intros Hord Hg.
    destruct (Z.lt_ge_cases (ch_entrada c2 - ch_saida c1) debounce_delay)
      as [Hlt|Hge]; [|exact Hge].
    exfalso. rewrite L, wrap32_diferenca in Hg;
      unfold debounce_delay in *; lia.
Qed.

(** ** The history buffer *)

Lemma atualizar_historico_valido v s :
  anel_valido s -> anel_valido (atualizar_historico v s).
Proof.
  clear log10f ssd1306_width.
  intros [Hl Hi]. split; cbn.
  - now rewrite length_insert.
  - unfold wrap8, TAMANHO_HISTORICO in Hi |- *.
    rewrite (Z.mod_small (_ mod 128)); Z.div_mod_to_equations; lia.
Qed.

Lemma leitura_cronologica_lookup s (i : nat) :
  (i < 128)%nat ->
  leitura_cronologica s !! i =
    Some (ler_historico (historico s)
            ((indice_historico s + Z.of_nat i) mod TAMANHO_HISTORICO)).
Proof.
  intros Hi. unfold leitura_cronologica.
  rewrite list_lookup_fmap, lookup_seq_lt; [reflexivity|].
  change (Z.to_nat TAMANHO_HISTORICO) with 128%nat. lia.
Qed.

Lemma leitura_cronologica_length s : length (leitura_cronologica s) = 128%nat.
Proof. unfold leitura_cronologica. now rewrite length_fmap, length_seq. Qed.

Lemma atualizar_historico_cronologica v s :
  anel_valido s ->
  leitura_cronologica (atualizar_historico v s)
    = drop 1 (leitura_cronologica s) ++ [v].
Proof.
  clear log10f ssd1306_width.
  intros [Hl Hi]. apply list_eq. intros i.
  destruct (Nat.lt_ge_cases i 128) as [Hlt|Hge].
  2:{ rewrite !lookup_ge_None_2; [reflexivity| |].
      - rewrite length_app, length_drop, leitura_cronologica_length. cbn. lia.
      - rewrite leitura_cronologica_length. lia. }
  rewrite leitura_cronologica_lookup by assumption.
  cbn [historico indice_historico atualizar_historico].
  unfold TAMANHO_HISTORICO, wrap8 in *.
  change (Z.to_nat 128) with 128%nat in Hl.
  rewrite (Z.mod_small ((indice_historico s + 1) mod 128) 256)
    by (Z.div_mod_to_equations; lia).
  destruct (Nat.eq_dec i 127%nat) as [->|Hne].
  - rewrite lookup_app_r; rewrite length_drop, leitura_cronologica_length;
      [|lia].
    change (127 - (128 - 1))%nat with 0%nat. cbn [lookup list_lookup].
    f_equal. unfold ler_historico.
    replace (((indice_historico s + 1) mod 128 + Z.of_nat 127) mod 128)
      with (indice_historico s) by (Z.div_mod_to_equations; lia).
    rewrite list_lookup_insert_eq by lia. reflexivity.
  - rewrite lookup_app_l
      by (rewrite length_drop, leitura_cronologica_length; lia).
    rewrite lookup_drop, leitura_cronologica_lookup by lia.
    f_equal. unfold ler_historico, TAMANHO_HISTORICO.
    replace (((indice_historico s + 1) mod 128 + Z.of_nat i) mod 128)
      with ((indice_historico s + Z.of_nat (1 + i)) mod 128)
      by (Z.div_mod_to_equations; lia).
    rewrite list_lookup_insert_ne; [reflexivity|].
    intros E. apply (f_equal Z.of_nat) in E.
    rewrite !Z2Nat.id in E by (Z.div_mod_to_equations; lia).
    revert E. Z.div_mod_to_equations. lia.
Qed.

Lemma empurrar_valido vs : forall s, anel_valido s -> anel_valido (empurrar vs s).
Proof.
  induction vs as [|v r IH]; intros s H; cbn; [assumption|].
  apply IH. now apply atualizar_historico_valido.
Qed.

Lemma empurrar_cronologica vs :
  forall s, anel_valido s ->
  leitura_cronologica (empurrar vs s)
    = drop (length vs) (leitura_cronologica s ++ vs).
Proof.
  induction vs as [|v r IH]; intros s H; cbn [empurrar fold_left length].
  - rewrite app_nil_r. reflexivity.
  - fold (empurrar r (atualizar_historico v s)).
    rewrite IH by now apply atualizar_historico_valido.
    rewrite atualizar_historico_cronologica by assumption.
    pose proof (leitura_cronologica_length s) as L.
    destruct (leitura_cronologica s) as [|x l]; [discriminate|].
    cbn. rewrite drop_0, <- app_assoc. reflexivity.
Qed.

Lemma leitura_cronologica_rotacao (s : Firmware) :
  anel_valido s ->
  leitura_cronologica s
    = drop (Z.to_nat (indice_historico s)) (historico s)
      ++ take (Z.to_nat (indice_historico s)) (historico s).
Proof.
  clear log10f ssd1306_width.
  intros [Hl Hi]. unfold TAMANHO_HISTORICO in Hl, Hi.
  change (Z.to_nat 128) with 128%nat in Hl.
  apply list_eq. intros i.
  destruct (Nat.lt_ge_cases i 128) as [Hlt|Hge].
  2:{ rewrite !lookup_ge_None_2; [reflexivity| |].
      - rewrite length_app, length_drop, length_take. lia.
      - rewrite leitura_cronologica_length. lia. }
  rewrite leitura_cronologica_lookup by assumption.
  unfold ler_historico, TAMANHO_HISTORICO.
  destruct (Nat.lt_ge_cases i (128 - Z.to_nat (indice_historico s)))
    as [Ha|Hb].
  - rewrite lookup_app_l by (rewrite length_drop; lia).
    rewrite lookup_drop.
    replace (Z.to_nat ((indice_historico s + Z.of_nat i) mod 128))
      with (Z.to_nat (indice_historico s) + i)%nat
      by (rewrite Z.mod_small by lia; lia).
    destruct (lookup_lt_is_Some_2 (historico s)
                (Z.to_nat (indice_historico s) + i) ltac:(lia)) as [x ->].
    reflexivity.
  - rewrite lookup_app_r by (rewrite length_drop; lia).
    rewrite length_drop, lookup_take_lt by lia.
    replace (Z.to_nat ((indice_historico s + Z.of_nat i) mod 128))
      with (i - (length (historico s) - Z.to_nat (indice_historico s)))%nat.
    + destruct (lookup_lt_is_Some_2 (historico s)
                  (i - (length (historico s) - Z.to_nat (indice_historico s)))
                  ltac:(lia)) as [x ->].
      reflexivity.
    + rewrite Hl.
      replace ((indice_historico s + Z.of_nat i) mod 128)
        with (indice_historico s + Z.of_nat i - 128)
        by (Z.div_mod_to_equations; lia).
      lia.
Qed.

Lemma historico_permutacao (s : Firmware) :
  anel_valido s -> Permutation (historico s) (leitura_cronologica s).
Proof.
  intros H. rewrite leitura_cronologica_rotacao by assumption.
  rewrite (Permutation_app_comm (drop _ _)). now rewrite take_drop.
Qed.

(** C7: the history is a fixed ring of 128 entries.  After any sequence of
    at least 128 pushes the array still has 128 cells, they hold exactly
    the last 128 pushed values, and reading the positions
    [(indice_historico + i) mod 128] for i = 0..127 yields these values in
    the order they were pushed, oldest first. *)
Theorem historico_ultimos_128 :
  forall (vs : list float) (s : Firmware),
    anel_valido s ->
    (128 <= length vs)%nat ->
    length (historico (empurrar vs s)) = 128%nat /\
    Permutation (historico (empurrar vs s)) (drop (length vs - 128) vs) /\
    leitura_cronologica (empurrar vs s) = drop (length vs - 128) vs.
Proof.
  intros vs s H Hn.
  assert (E : leitura_cronologica (empurrar vs s) = drop (length vs - 128) vs).
  { rewrite empurrar_cronologica by assumption.
    rewrite drop_app_ge; rewrite leitura_cronologica_length;
      [reflexivity|lia]. }
  split; [apply (empurrar_valido vs s H)|]. split; [|exact E].
  rewrite <- E. apply historico_permutacao. now apply empurrar_valido.
Qed.

(** *** The order of [<] on floats *)

Lemma ltb_irrefl (x : float) : F32.ltb x x = false.
Proof.
  unfold F32.ltb, SFltb.
  destruct x as [[]|[]| |[] m e]; cbn; try reflexivity;
    rewrite Z.compare_refl, Pos.compare_cont_refl; reflexivity.
Qed.

Lemma ltb_trans (x y z : float) :
  F32.ltb x y = true -> F32.ltb y z = true -> F32.ltb x z = true.
Proof.
  unfold F32.ltb, SFltb.
  destruct x as [[]|[]| |[] m1 e1], y as [[]|[]| |[] m2 e2],
    z as [[]|[]| |[] m3 e3]; cbn; try discriminate; try reflexivity;
    change (Pos.compare_cont Eq) with Pos.compare;
    destruct (Z.compare_spec e1 e2), (Z.compare_spec e2 e3),
      (Z.compare_spec e1 e3), (Pos.compare_spec m1 m2),
      (Pos.compare_spec m2 m3), (Pos.compare_spec m1 m3);
    cbn; try discriminate; try reflexivity; intros; lia.
Qed.

Lemma maior_fold (array : list float) (idxs : list nat) :
  forall (m : float) (vistos : list float),
    elem_of m vistos ->
    (forall x, elem_of x vistos -> F32.ltb m x = false) ->
    let r := fold_left (maior array) idxs m in
    let todos := vistos ++ ((fun i => ler_historico array (Z.of_nat i)) <$> idxs) in
    elem_of r todos /\ forall x, elem_of x todos -> F32.ltb r x = false.
Proof.
  induction idxs as [|i idxs IH]; intros m vistos Hm Hv; cbn zeta.
  - cbn. rewrite app_nil_r. auto.
  - cbn [fold_left fmap list_fmap].
    set (x := ler_historico array (Z.of_nat i)).
    replace (vistos ++ x :: ((fun i => ler_historico array (Z.of_nat i)) <$> idxs))
      with ((vistos ++ [x]) ++ ((fun i => ler_historico array (Z.of_nat i)) <$> idxs))
      by now rewrite <- app_assoc.
    apply IH.
    + unfold maior. fold x. apply elem_of_app.
      destruct (F32.ltb m x); [right | left; assumption].
      now apply list_elem_of_singleton.
    + intros y Hy. unfold maior. fold x.
      destruct (F32.ltb m x) eqn:E.
      * apply elem_of_app in Hy as [Hy|Hy].
        -- destruct (F32.ltb x y) eqn:E2; [|reflexivity].
           rewrite <- (Hv y Hy). symmetry. now apply (ltb_trans m x y).
        -- apply list_elem_of_singleton in Hy as ->. apply ltb_irrefl.
      * apply elem_of_app in Hy as [Hy|Hy]; [now apply Hv|].
        apply list_elem_of_singleton in Hy as ->. exact E.
Qed.

Lemma obter_valor_maximo_maior (array : list float) :
  length array = 128%nat ->
  let r := obter_valor_maximo array TAMANHO_HISTORICO in
  elem_of r array /\ forall x, elem_of x array -> F32.ltb r x = false.
Proof.
  intros Hl r.
  assert (E : ler_historico array 0
              :: ((fun i => ler_historico array (Z.of_nat i)) <$> seq 1 127)
              = array).
  { change (((fun i => ler_historico array (Z.of_nat i)) <$> seq 0 128)
            = array).
    apply list_eq. intros i. rewrite list_lookup_fmap.
    destruct (Nat.lt_ge_cases i 128) as [Hi|Hi].
    - rewrite lookup_seq_lt by assumption. cbn. unfold ler_historico.
      rewrite Nat2Z.id.
      destruct (lookup_lt_is_Some_2 array i ltac:(lia)) as [x Hx].
      rewrite Hx. reflexivity.
    - rewrite lookup_seq_ge by assumption. cbn.
      symmetry. apply lookup_ge_None_2. lia. }
  pose proof (maior_fold array (seq 1 127) (ler_historico array 0)
                [ler_historico array 0]) as H.
  cbn zeta in H. cbn [app] in H. rewrite E in H. apply H.
  - now apply list_elem_of_singleton.
  - intros x Hx. apply list_elem_of_singleton in Hx as ->. apply ltb_irrefl.
Qed.

Lemma ciclo_historico (e : Entradas) (s : Firmware) :
  let s0 := atualizar_historico (fst (ler_decibeis (microfone e) s))
              (snd (ler_decibeis (microfone e) s)) in
  historico (fst (ciclo e s)) = historico s0 /\
  indice_historico (fst (ciclo e s)) = indice_historico s0.
Proof.
  rewrite ciclo_desdobrado. cbn zeta. cbn [fst].
  destruct (acionar_buzzer_campos
              (alerta_cond (fst (ler_decibeis (microfone e) s))
                 (antes_do_alerta e s))
              (antes_do_alerta e s)) as (_ & _ & _ & _ & H & I & _).
  cbn zeta in H, I. rewrite H, I. unfold antes_do_alerta.
  match goal with
  | |- context [verificar_joystick ?r ?x] =>
      destruct (verificar_joystick_campos r x) as (_ & -> & -> & _)
  end.
  match goal with
  | |- context [verificar_botoes ?a ?b ?c ?d ?x] =>
      destruct (verificar_botoes_campos a b c d x) as (_ & -> & -> & _)
  end.
  split; reflexivity.
Qed.

Lemma alcancavel_anel_valido (s : Firmware) : alcancavel s -> anel_valido s.
Proof.
  induction 1 as [|e s _ IH].
  - split; [reflexivity|].
    unfold TAMANHO_HISTORICO. cbn [estado_inicial indice_historico]. lia.
  - destruct (ciclo_historico e s) as [H I]. cbn zeta in H, I.
    assert (V : anel_valido (snd (ler_decibeis (microfone e) s))).
    { destruct (ler_decibeis_campos (microfone e) s) as (_ & _ & Hh & Hi & _).
      cbn zeta in Hh, Hi. unfold anel_valido. now rewrite Hh, Hi. }
    apply (atualizar_historico_valido (fst (ler_decibeis (microfone e) s)))
      in V.
    unfold anel_valido in *. now rewrite H, I.
Qed.

(** ** The presentation composer *)

Lemma pontos_cronologicos (s : Firmware) (escala : float) :
  ponto_grafico s escala <$> seq 0 (Z.to_nat TAMANHO_HISTORICO)
    = imap (ponto_do_nivel escala) (leitura_cronologica s).
Proof.
  unfold leitura_cronologica. rewrite imap_fmap. apply list_eq. intros i.
  rewrite list_lookup_fmap, list_lookup_imap.
  destruct (seq 0 (Z.to_nat TAMANHO_HISTORICO) !! i) as [j|] eqn:E;
    [|reflexivity].
  apply lookup_seq in E as [-> _]. reflexivity.
Qed.

Lemma alcancavel_nunca_alerta (s : Firmware) :
  alcancavel s -> modo_atual s <> ALERTA.
Proof.
  induction 1 as [|e s _ IH]; [discriminate|].
  rewrite ciclo_modo. now apply verificar_joystick_nunca_alerta.
Qed.

Lemma compor_tela_telas (db : float) (c : bool) (s : Firmware) :
  modo_atual s <> ALERTA ->
  compor_tela db c s =
    if Modo_eqb (modo_atual s) ESTATISTICAS
    then tela_estatisticas (contador_alertas s)
    else if c then tela_alerta
    else tela_monitoramento ssd1306_width db (limite_atual_db s)
           (leitura_cronologica s)
           (escala_grafico
              (obter_valor_maximo (historico s) TAMANHO_HISTORICO)).
Proof.
  intros H. unfold compor_tela, atualizar_display.
  destruct (modo_atual s); [|contradiction|reflexivity].
  cbn [Modo_eqb]. destruct c; [reflexivity|].
  rewrite pontos_cronologicos. reflexivity.
Qed.

(** C8, amended: each cycle renders exactly one screen, by priority.  In
    Statistics mode it is the statistics screen (the label and the alert
    counter) whatever the level and the alert condition; otherwise, with a
    true alert condition, the fixed alert banner; otherwise the monitoring
    screen: the level, the mode label, the threshold and the graph of the
    history, oldest entry first, whose scale factor is 40.0 / max when the
    maximum of the history (an entry that no entry exceeds) is above 40.0
    and 1.0 otherwise (max 20 gives 1.0, max 80 gives 0.5), the point of
    each level being drawn at row 40 minus the product level * scale
    truncated toward zero to an integer. *)
Theorem tela_por_prioridade :
  forall (e : Entradas) (s : Firmware),
    alcancavel s ->
    let s' := fst (ciclo e s) in
    let o := snd (ciclo e s) in
    let maximo := obter_valor_maximo (historico s') TAMANHO_HISTORICO in
    tela o =
      (if Modo_eqb (modo_atual s') ESTATISTICAS
       then tela_estatisticas (contador_alertas s')
       else if condicao o then tela_alerta
       else tela_monitoramento ssd1306_width (nivel_db o) (limite_atual_db s')
              (leitura_cronologica s') (escala_grafico maximo)) /\
    elem_of maximo (historico s') /\
    (forall x, elem_of x (historico s') -> (maximo <? x)%f32 = false) /\
    ((F32.of_Z 40 <? maximo)%f32 = true ->
     escala_grafico maximo = (F32.of_Z 40 / maximo)%f32) /\
    ((F32.of_Z 40 <? maximo)%f32 = false ->
     escala_grafico maximo = F32.of_Z 1) /\
    escala_grafico (F32.of_Z 20) = F32.of_Z 1 /\
    escala_grafico (F32.of_Z 80) = F32.lit 1 2.
Proof.
  intros e s Hs s' o maximo.
  assert (Hs' : alcancavel s') by now constructor.
  destruct (obter_valor_maximo_maior (historico s')) as [M1 M2];
    [apply (alcancavel_anel_valido s' Hs')|].
  split; [|split; [exact M1|split; [exact M2|split; [|split; [|split]]]]].
  - assert (Hm : modo_atual s' <> ALERTA)
      by now apply alcancavel_nunca_alerta.
    subst s' o maximo. revert Hm. rewrite ciclo_desdobrado. cbn.
    apply compor_tela_telas.
  - unfold escala_grafico. now intros ->.
  - unfold escala_grafico. now intros ->.
  - reflexivity.
  - reflexivity.
Qed.

(** ** The level estimator *)


Lemma laco_amostras_formula (adc : nat -> Z) (n : nat) :
  forall (i : nat) (o q : float),
    let vs := tensao_formula 4096 <$> amostras_lidas adc i n in
    laco_amostras n adc i (o, q) =
      (default o (last (offsets_formula o vs)),
       soma_quadrados_de q (zip_with ac_formula vs (offsets_formula o vs))).
Proof.
  induction n as [|n IH]; intros i o q; cbn zeta; [reflexivity|].
  cbn [laco_amostras amostrar]. rewrite IH. unfold amostras_lidas.
  cbn [seq fmap list_fmap offsets_formula zip_with soma_quadrados_de fold_left].
  fold (tensao_formula 4096 (wrap16 (adc i))).
  f_equal. rewrite last_cons.
  destruct (last _); reflexivity.
Qed.

(** C3, amended: for every batch of 64 raw samples and every starting DC
    offset, the level estimator computes exactly, each operation rounded to
    binary32: voltage = raw * 3.3 / 4096 for each sample;
    offset' = 0.95 * offset + 0.05 * voltage; AC = (voltage - offset') * 10;
    rms = sqrt(sum of the squares of AC / 64), the sum taken in sample
    order; result = max(30.0, 20 * log10(rms / 0.00002 + 1e-12)); and the
    offset it leaves behind is the one after the last sample. *)
Theorem ler_decibeis_formula :
  forall (adc : nat -> Z) (s : Firmware),
    let raws := amostras_lidas adc 0 64 in
    let tensoes := tensao_formula 4096 <$> raws in
    length raws = 64%nat /\
    fst (ler_decibeis adc s) = nivel_formula 4096 (offset_dc s) raws /\
    offset_dc (snd (ler_decibeis adc s))
      = default (offset_dc s) (last (offsets_formula (offset_dc s) tensoes)).
Proof.
  intros adc s raws tensoes. split.
  - unfold raws, amostras_lidas. now rewrite length_fmap, length_seq.
  - unfold ler_decibeis.
    change (Z.to_nat AMOSTRAS) with 64%nat.
    rewrite laco_amostras_formula. cbn zeta. split; reflexivity.
Qed.


Lemma ltb_leb (x y : float) : F32.ltb x y = true -> F32.leb x y = true.
Proof.
  unfold F32.ltb, F32.leb, SFltb, SFleb.
  destruct (SFcompare x y) as [[]|]; congruence.
Qed.

Lemma fmaxf_piso (y : float) :
  F32.leb (F32.of_Z 30) (F32.fmaxf (F32.of_Z 30) y) = true.
Proof.
  unfold F32.fmaxf. change (F32.is_nan (F32.of_Z 30)) with false. cbv iota.
  destruct (F32.is_nan y); [reflexivity|].
  destruct (F32.ltb (F32.of_Z 30) y) eqn:E; [now apply ltb_leb | reflexivity].
Qed.

Lemma leb_30_consequencias (x : float) :
  F32.leb (F32.of_Z 30) x = true ->
  x <> S754_infinity true /\ x <> S754_nan /\ F32.ltb x F32.zero = false.
Proof.
  change (F32.of_Z 30) with (S754_finite false 15728640 (-19)).
  destruct x as [[]|[]| |[] m e]; intros H; repeat split;
    try discriminate; try reflexivity; discriminate H.
Qed.

Lemma sub_diag (x : float) : finito x = true -> F32.sub x x = F32.zero.
Proof.
  destruct x as [[]| | |s m e]; cbn; try discriminate; try reflexivity.
  intros _. unfold F32.sub, SFsub. rewrite Z.sub_diag. reflexivity.
Qed.

Lemma tensoes_finitas :
  forallb (fun r => finito (tensao_formula 4096 r))
    (intervalo 0 (Z.to_nat 4096)) = true.
Proof. vm_cast_no_check (eq_refl true). Qed.

Lemma tensao_finita (leitura : Z) :
  0 <= leitura < 4096 ->
  finito (tensao_formula 4096 (wrap16 leitura)) = true.
Proof.
  intros R. rewrite wrap16_small by lia.
  apply (forallb_intervalo _ _ _ tensoes_finitas). lia.
Qed.

Lemma laco_amostras_snoc (adc : nat -> Z) (n : nat) :
  forall i st,
    laco_amostras (S n) adc i st
      = amostrar (adc (i + n)%nat) (laco_amostras n adc i st).
Proof.
  induction n as [|n IH]; intros i st.
  - cbn. now rewrite Nat.add_0_r.
  - change (laco_amostras (S (S n)) adc i st)
      with (laco_amostras (S n) adc (S i) (amostrar (adc i) st)).
    rewrite IH. cbn [laco_amostras]. f_equal. f_equal. lia.
Qed.

Lemma laco_amostras_silencio (adc : nat -> Z) (offset : float) :
  (forall i, (i < 64)%nat -> 0 <= adc i < 4096) ->
  sobre_o_offset adc offset ->
  forall n, (n <= 64)%nat ->
    snd (laco_amostras n adc 0 (offset, F32.zero)) = F32.zero.
Proof.
  intros R H n. induction n as [|n IH]; intros Hn; [reflexivity|].
  specialize (H n ltac:(lia)). rewrite laco_amostras_snoc in H |- *.
  rewrite Nat.add_0_l in *.
  destruct (laco_amostras n adc 0 (offset, F32.zero)) as [o q] eqn:E.
  cbn [snd] in IH. rewrite IH in * by lia.
  unfold amostrar in H |- *. cbn [fst snd] in H |- *.
  fold (tensao_formula 4096 (wrap16 (adc n))) in H |- *.
  rewrite <- H. rewrite sub_diag by (apply tensao_finita, R; lia).
  reflexivity.
Qed.

Lemma nivel_de_rms_zero :
  F32.ltb (log10f epsilon_log) F32.zero = true ->
  nivel_de_rms (F32.sqrtf (F32.zero / F32.of_Z 64)%f32) = F32.of_Z 30.
Proof.
  unfold nivel_de_rms.
  change (F32.sqrtf (F32.zero / F32.of_Z 64)%f32 / F32.lit 2 100000
          + F32.lit 1 1000000000000)%f32 with epsilon_log.
  destruct (log10f epsilon_log) as [[]|[]| |[] m e]; try discriminate;
    intros _; try reflexivity.
  unfold F32.mul, SFmul. change (F32.of_Z 20)
    with (S754_finite false 10485760 (-19)). cbv iota beta.
  unfold binary_round_aux.
  destruct (shr_fexp _ _ _ _ _) as [mrs e'].
  destruct (shr_fexp _ _ _ _ _) as [mrs' e''].
  destruct (shr_m mrs') as [|p|p]; try reflexivity.
  destruct (e'' <=? _); reflexivity.
Qed.

(** C4: whatever the samples and the starting DC offset, the level returned
    by [ler_decibeis] is at least 30.0 (so it is neither a NaN nor minus
    infinity); and when the voltage of every sample, a reading of the
    12-bit converter, equals the tracked offset, the sum of squares, hence
    the RMS, is zero and the level is exactly 30.0, [log10f] of the library
    returning a negative value at 1e-12. *)
Theorem ler_decibeis_piso :
  forall (adc : nat -> Z) (s : Firmware),
    let db := fst (ler_decibeis adc s) in
    F32.leb (F32.of_Z 30) db = true /\
    db <> S754_infinity true /\
    db <> S754_nan /\
    ((forall i, (i < 64)%nat -> 0 <= adc i < 4096) ->
     sobre_o_offset adc (offset_dc s) ->
     F32.ltb (log10f epsilon_log) F32.zero = true ->
     snd (laco_amostras 64 adc 0 (offset_dc s, F32.zero)) = F32.zero /\
     db = F32.of_Z 30).
Proof.
  intros adc s db.
  assert (Hp : F32.leb (F32.of_Z 30) db = true).
  { subst db. unfold ler_decibeis.
    destruct (laco_amostras _ _ _ _) as [o q]. cbn [fst]. apply fmaxf_piso. }
  split; [exact Hp|].
  split; [now apply leb_30_consequencias|].
  split; [now apply leb_30_consequencias|].
  intros R Hs Hl.
  pose proof (laco_amostras_silencio adc (offset_dc s) R Hs 64 (le_n _)) as Hq.
  split; [exact Hq|].
  subst db. unfold ler_decibeis. change (Z.to_nat AMOSTRAS) with 64%nat.
  destruct (laco_amostras 64 adc 0 (offset_dc s, F32.zero)) as [o q].
  cbn [snd] in Hq. subst q. cbn [fst]. now apply nivel_de_rms_zero.
Qed.

(** * Further properties of the code *)

(** ** [verificar_botoes] *)

Lemma wrap32_sub_mod (T T0 : Z) :
  wrap32 (wrap32 T - wrap32 T0) = (T - T0) mod 4294967296.
Proof. unfold wrap32. now rewrite <- Zminus_mod. Qed.

(** X1: the debounce gate compares times modulo 2^32.  With [last_press]
    holding the instant T0, a call entered at T is stopped exactly when
    (T - T0) mod 2^32 is below 200000: so also when it comes a whole number
    of turns of the 32-bit timer (about 71.6 min each) plus less than
    200 ms after T0; otherwise it is acted upon and records its exit
    time. *)
Theorem verificar_botoes_portao_modular :
  forall (s : Firmware) (T0 T t2 : Z) (a b : bool),
    last_press s = wrap32 T0 ->
    ((T - T0) mod 4294967296 < debounce_delay ->
     verificar_botoes T t2 a b s = s) /\
    (debounce_delay <= (T - T0) mod 4294967296 ->
     last_press (verificar_botoes T t2 a b s) = wrap32 t2) /\
    (forall n d, 0 <= d < debounce_delay ->
       verificar_botoes (T0 + n * 4294967296 + d) t2 a b s = s).
Proof.
  intros s T0 T t2 a b Hl. split; [|split].
  - intros H. apply verificar_botoes_barrado.
    now rewrite Hl, wrap32_sub_mod.
  - intros H. apply verificar_botoes_last_press.
    now rewrite Hl, wrap32_sub_mod.
  - intros n d Hd. apply verificar_botoes_barrado.
    rewrite Hl, wrap32_sub_mod.
    replace (T0 + n * 4294967296 + d - T0) with (d + n * 4294967296) by lia.
    rewrite Z_mod_plus_full. unfold debounce_delay in *.
    rewrite Z.mod_small; lia.
Qed.

Lemma executar_botoes_cons c r s :
  executar_botoes (c :: r) s = executar_botoes r (chamar_botoes c s).
Proof. reflexivity. Qed.

Lemma espacadas_aceita (T0 : Z) (c : Chamada) (s : Firmware) :
  last_press s = wrap32 T0 ->
  debounce_delay <= ch_entrada c - T0 < 4294967296 ->
  debounce_delay <= wrap32 (wrap32 (ch_entrada c) - last_press s).
Proof.
  intros Hl H. rewrite Hl, wrap32_diferenca; unfold debounce_delay in *; lia.
Qed.

(** X2: holding one button down over calls that are each at least 200 ms
    after the one before moves the threshold by exactly 1.0 per call up to
    the bound: n such calls with only button A down take a threshold k to
    min(120, k + n), and with only button B down to max(30, k - n). *)
Theorem verificar_botoes_mantido :
  forall (cs : list Chamada) (s : Firmware) (T0 k : Z),
    last_press s = wrap32 T0 ->
    30 <= k <= 120 ->
    limite_atual_db s = F32.of_Z k ->
    espacadas T0 cs ->
    (Forall (fun c => ch_gpio_a c = false /\ ch_gpio_b c = true) cs ->
     limite_atual_db (executar_botoes cs s)
       = F32.of_Z (Z.min 120 (k + Z.of_nat (length cs)))) /\
    (Forall (fun c => ch_gpio_a c = true /\ ch_gpio_b c = false) cs ->
     limite_atual_db (executar_botoes cs s)
       = F32.of_Z (Z.max 30 (k - Z.of_nat (length cs)))).
Proof.
  induction cs as [|c r IH]; intros s T0 k Hl Hk Hlim He.
  - cbn [executar_botoes length Z.of_nat]. split; intros _; rewrite Hlim;
      f_equal; lia.
  - destruct He as [Hc Hr].
    pose proof (espacadas_aceita T0 c s Hl Hc) as G.
    rewrite !executar_botoes_cons. unfold chamar_botoes.
    destruct (verificar_botoes_aceito (ch_entrada c) (ch_saida c)
                (ch_gpio_a c) (ch_gpio_b c) s k G Hk Hlim) as [L1 L2].
    pose proof (ajuste_limite_range (ch_gpio_a c) (ch_gpio_b c) k Hk) as Rk.
    destruct (IH _ (ch_saida c) _ L2 Rk L1 Hr) as [IA IB].
    split; intros F; inversion F as [|? ? [Ea Eb] F']; subst.
    + rewrite (IA F'). f_equal. rewrite Ea, Eb. unfold ajuste_limite.
      cbn [negb length]. lia.
    + rewrite (IB F'). f_equal. rewrite Ea, Eb. unfold ajuste_limite.
      cbn [negb length]. lia.
Qed.

(** X3: a call that is acted upon with both buttons down adds 1.0 and then
    subtracts 1.0: the threshold is left as it was, except at the upper
    bound 120.0, where the addition is clamped and the threshold drops to
    119.0. *)
Theorem verificar_botoes_ambos :
  forall (s : Firmware) (t1 t2 k : Z),
    debounce_delay <= wrap32 (wrap32 t1 - last_press s) ->
    30 <= k <= 120 ->
    limite_atual_db s = F32.of_Z k ->
    limite_atual_db (verificar_botoes t1 t2 false false s)
      = F32.of_Z (if k =? 120 then 119 else k).
Proof.
  intros s t1 t2 k G Hk Hl.
  destruct (verificar_botoes_aceito t1 t2 false false s k G Hk Hl) as [-> _].
  f_equal. unfold ajuste_limite. cbn [negb].
  destruct (Z.eqb_spec k 120); lia.
Qed.

(** ** [verificar_joystick] *)

Lemma verificar_joystick_zona (leitura : Z) (s : Firmware) :
  0 <= leitura < 4096 ->
  verificar_joystick leitura s =
    match zona leitura with
    | Some m => com_modo m s
    | None => s
    end.
Proof.
  intros R. rewrite verificar_joystick_modo by assumption. unfold zona.
  destruct (leitura <=? 1228); [reflexivity|].
  destruct (2868 <=? leitura); reflexivity.
Qed.

Lemma executar_joystick_cons r rest s :
  executar_joystick (r :: rest) s
    = executar_joystick rest (verificar_joystick r s).
Proof. reflexivity. Qed.

Lemma executar_joystick_zona (rs : list Z) :
  forall (s : Firmware),
    Forall (fun r => 0 <= r < 4096) rs ->
    executar_joystick rs s
      = com_modo (default (modo_atual s) (last (omap zona rs))) s.
Proof.
  induction rs as [|r rest IH]; intros s H.
  - cbn. destruct s; reflexivity.
  - inversion H as [|? ? Hr Hrest]; subst.
    rewrite executar_joystick_cons, (IH _ Hrest).
    rewrite verificar_joystick_zona by assumption.
    cbn [omap list_omap]. destruct (zona r) as [m|]; [|reflexivity].
    rewrite last_cons. cbn [com_modo modo_atual].
    destruct (last (omap zona rest)); reflexivity.
Qed.

(** X4: the mode is a latch.  After any sequence of readings of the 12-bit
    converter, the mode is the one selected by the last reading that fell
    outside of the dead zone (at most 1228: Monitoring; at least 2868:
    Statistics), or the mode before the sequence when every reading fell in
    the dead zone; no other global is touched. *)
Theorem verificar_joystick_retem :
  forall (rs : list Z) (s : Firmware),
    Forall (fun r => 0 <= r < 4096) rs ->
    modo_atual (executar_joystick rs s)
      = default (modo_atual s) (last (omap zona rs)) /\
    executar_joystick rs s
      = mkFirmware (limite_atual_db s)
          (default (modo_atual s) (last (omap zona rs)))
          (historico s) (indice_historico s) (contador_alertas s)
          (offset_dc s) (last_press s) (estado_anterior s).
Proof.
  intros rs s H. rewrite (executar_joystick_zona rs s H). split; reflexivity.
Qed.

(** ** [acionar_buzzer] along a run *)

Lemma ciclo_pwm (e : Entradas) (s : Firmware) :
  pwm (snd (ciclo e s)) =
    if Bool.eqb (condicao (snd (ciclo e s))) (estado_anterior s) then []
    else if condicao (snd (ciclo e s)) then pwm_inicio
    else [pwm_set_enabled BUZZER_PIN false].
Proof.
  rewrite ciclo_desdobrado. cbn zeta. cbn [snd pwm condicao].
  destruct (antes_do_alerta_buzzer e s) as [E _].
  unfold acionar_buzzer. rewrite E.
  destruct (Bool.eqb _ (estado_anterior s)); [reflexivity|].
  destruct (alerta_cond _ _); reflexivity.
Qed.

Lemma pwm_emitido_cons e r s :
  pwm_emitido (e :: r) s
    = pwm (snd (ciclo e s)) ++ pwm_emitido r (fst (ciclo e s)).
Proof. reflexivity. Qed.

Lemma habilitacoes_app (l1 l2 : list PwmOp) :
  habilitacoes (l1 ++ l2) = habilitacoes l1 ++ habilitacoes l2.
Proof. unfold habilitacoes. apply omap_app. Qed.

Lemma pwm_emitido_mudancas (es : list Entradas) :
  forall s,
    habilitacoes (pwm_emitido es s)
      = mudancas (estado_anterior s) (condicoes es s).
Proof.
  induction es as [|e r IH]; intros s; [reflexivity|].
  rewrite pwm_emitido_cons, condicoes_cons, habilitacoes_app, IH.
  destruct (ciclo_contador e s) as [Ha _]. cbn zeta in Ha.
  rewrite Ha, ciclo_pwm. cbn [mudancas].
  destruct (Bool.eqb (condicao (snd (ciclo e s))) (estado_anterior s)) eqn:E.
  - apply Bool.eqb_prop in E. rewrite E. reflexivity.
  - destruct (condicao (snd (ciclo e s))); reflexivity.
Qed.

Lemma mudancas_alternada (conds : list bool) :
  forall anterior, alternada (negb anterior) (mudancas anterior conds).
Proof.
  induction conds as [|c r IH]; intros a; cbn [mudancas]; [exact I|].
  destruct (Bool.eqb c a) eqn:E; [apply IH|].
  cbn [alternada]. split.
  - destruct c, a; try reflexivity; discriminate.
  - replace (negb (negb a)) with (negb c); [apply IH|].
    destruct c, a; try reflexivity; discriminate.
Qed.

(** X5: what the tone generator is sent.  In a cycle where the alert
    condition goes from false to true it is sent a wrap of 3125, a level of
    1562 and the enable, in that order; where it goes from true to false,
    the disable alone; where it does not change, nothing.  So along any run
    the enables and disables sent are the changes of the condition, and
    they alternate: never two enables nor two disables in a row, the first
    one from power-up being an enable. *)
Theorem pwm_emitido_alterna :
  forall (es : list Entradas) (s : Firmware) (e : Entradas),
    pwm (snd (ciclo e s)) =
      (if Bool.eqb (condicao (snd (ciclo e s))) (estado_anterior s) then []
       else if condicao (snd (ciclo e s)) then pwm_inicio
       else [pwm_set_enabled BUZZER_PIN false]) /\
    habilitacoes (pwm_emitido es s)
      = mudancas (estado_anterior s) (condicoes es s) /\
    alternada (negb (estado_anterior s)) (habilitacoes (pwm_emitido es s)) /\
    alternada true (habilitacoes (pwm_emitido es estado_inicial)).
Proof.
  intros es s e. split; [apply ciclo_pwm|].
  split; [apply pwm_emitido_mudancas|]. split.
  - rewrite pwm_emitido_mudancas. apply mudancas_alternada.
  - rewrite pwm_emitido_mudancas. apply (mudancas_alternada _ false).
Qed.

Lemma bordas_subida_metade (conds : list bool) :
  forall anterior,
    2 * bordas_subida anterior conds
      <= Z.of_nat (length conds) + (if anterior then 0 else 1).
Proof.
  induction conds as [|c r IH]; intros a.
  - cbn. destruct a; lia.
  - specialize (IH c). cbn [bordas_subida length].
    destruct a, c; cbn [negb andb] in *; lia.
Qed.

Lemma condicoes_length (es : list Entradas) :
  forall s, length (condicoes es s) = length es.
Proof.
  induction es as [|e r IH]; intros s; [reflexivity|].
  rewrite condicoes_cons. cbn [length]. now rewrite IH.
Qed.

(** X6: the counter counts alarms, not loud cycles: after n cycles from
    power-up it is at most (n + 1) / 2, since two alerts are always
    separated by a cycle in which the condition was false. *)
Theorem contador_alertas_limitado :
  forall (es : list Entradas),
    0 <= contador_alertas (executar estado_inicial es) /\
    2 * contador_alertas (executar estado_inicial es)
      <= Z.of_nat (length es) + 1.
Proof.
  intros es.
  assert (H0 : 0 <= contador_alertas estado_inicial < 4294967296)
    by (cbn [estado_inicial contador_alertas]; lia).
  rewrite (executar_contador es estado_inicial H0).
  pose proof (bordas_subida_metade (condicoes es estado_inicial) false) as B.
  pose proof (bordas_subida_nonneg (condicoes es estado_inicial) false) as N.
  rewrite condicoes_length in B.
  cbn [estado_inicial contador_alertas estado_anterior] in *.
  rewrite Z.add_0_l.
  set (n := bordas_subida false (condicoes es estado_inicial)) in *.
  pose proof (wrap32_range n) as W.
  assert (wrap32 n <= n) by (unfold wrap32; apply Z.mod_le; lia).
  lia.
Qed.

Lemma ciclo_condicao (e : Entradas) (s : Firmware) :
  condicao (snd (ciclo e s)) =
    F32.ltb (limite_atual_db (fst (ciclo e s))) (nivel_db (snd (ciclo e s)))
    && negb (Modo_eqb (modo_atual (fst (ciclo e s))) ESTATISTICAS).
Proof.
  rewrite ciclo_desdobrado. cbn zeta. cbn [fst snd condicao nivel_db].
  destruct (acionar_buzzer_campos
              (alerta_cond (fst (ler_decibeis (microfone e) s))
                 (antes_do_alerta e s))
              (antes_do_alerta e s)) as (_ & _ & L & M & _).
  cbn zeta in L, M. rewrite L, M. reflexivity.
Qed.

(** X7: the Statistics end of the stick silences the alarm.  In a cycle
    whose joystick reading is at least 2868 (of 4096), whatever the level:
    the alert condition is false, the tone generator is sent a disable if
    the alarm was sounding and nothing otherwise, the counter keeps its
    value and the screen is the statistics screen showing it. *)
Theorem estatisticas_silencia :
  forall (e : Entradas) (s : Firmware),
    2868 <= joystick e < 4096 ->
    modo_atual (fst (ciclo e s)) = ESTATISTICAS /\
    condicao (snd (ciclo e s)) = false /\
    estado_anterior (fst (ciclo e s)) = false /\
    pwm (snd (ciclo e s))
      = (if estado_anterior s then [pwm_set_enabled BUZZER_PIN false] else []) /\
    contador_alertas (fst (ciclo e s)) = contador_alertas s /\
    tela (snd (ciclo e s)) = tela_estatisticas (contador_alertas s).
Proof.
  intros e s R.
  assert (M : modo_atual (fst (ciclo e s)) = ESTATISTICAS).
  { rewrite ciclo_modo, verificar_joystick_modo by lia.
    destruct (Z.leb_spec (joystick e) 1228); [lia|].
    destruct (Z.leb_spec 2868 (joystick e)); [reflexivity|lia]. }
  assert (C : condicao (snd (ciclo e s)) = false).
  { rewrite ciclo_condicao, M. apply andb_false_r. }
  destruct (ciclo_contador e s) as [Ha Hc]. cbn zeta in Ha, Hc.
  rewrite C in Ha, Hc. rewrite andb_false_r in Hc.
  split; [exact M|]. split; [exact C|]. split; [exact Ha|].
  split; [|split; [exact Hc|]].
  - rewrite ciclo_pwm, C. destruct (estado_anterior s); reflexivity.
  - rewrite <- Hc. revert M. rewrite ciclo_desdobrado. cbn zeta.
    cbn [fst snd tela]. intros M. unfold compor_tela. rewrite M.
    reflexivity.
Qed.

(** ** The history along a run *)

Lemma leitura_cronologica_ext (s1 s2 : Firmware) :
  historico s1 = historico s2 ->
  indice_historico s1 = indice_historico s2 ->
  leitura_cronologica s1 = leitura_cronologica s2.
Proof. unfold leitura_cronologica. now intros -> ->. Qed.

Lemma ciclo_nivel (e : Entradas) (s : Firmware) :
  nivel_db (snd (ciclo e s)) = fst (ler_decibeis (microfone e) s).
Proof. rewrite ciclo_desdobrado. reflexivity. Qed.

Lemma ler_decibeis_anel (adc : nat -> Z) (s : Firmware) :
  anel_valido s -> anel_valido (snd (ler_decibeis adc s)).
Proof.
  destruct (ler_decibeis_campos adc s) as (_ & _ & Hh & Hi & _).
  cbn zeta in Hh, Hi. unfold anel_valido. now rewrite Hh, Hi.
Qed.

Lemma ciclo_anel_valido (e : Entradas) (s : Firmware) :
  anel_valido s -> anel_valido (fst (ciclo e s)).
Proof.
  intros V. destruct (ciclo_historico e s) as [H I]. cbn zeta in H, I.
  apply (ler_decibeis_anel (microfone e)) in V.
  apply (atualizar_historico_valido (fst (ler_decibeis (microfone e) s)))
    in V.
  unfold anel_valido in V |- *. now rewrite H, I.
Qed.

Lemma ciclo_cronologica (e : Entradas) (s : Firmware) :
  anel_valido s ->
  leitura_cronologica (fst (ciclo e s))
    = drop 1 (leitura_cronologica s) ++ [nivel_db (snd (ciclo e s))].
Proof.
  intros V. destruct (ciclo_historico e s) as [H I]. cbn zeta in H, I.
  rewrite (leitura_cronologica_ext _ _ H I).
  rewrite atualizar_historico_cronologica
    by now apply ler_decibeis_anel.
  rewrite ciclo_nivel. f_equal.
Qed.

Lemma wrap8_indice (i : Z) :
  wrap8 ((i + 1) mod 128) = (i + 1) mod 128.
Proof.
  clear log10f ssd1306_width.
  unfold wrap8. apply Z.mod_small. Z.div_mod_to_equations. lia.
Qed.

Lemma ciclo_indice (e : Entradas) (s : Firmware) :
  anel_valido s ->
  indice_historico (fst (ciclo e s))
    = (indice_historico s + 1) mod TAMANHO_HISTORICO.
Proof.
  intros _. destruct (ciclo_historico e s) as [_ I]. cbn zeta in I.
  rewrite I. cbn [atualizar_historico indice_historico].
  destruct (ler_decibeis_campos (microfone e) s) as (_ & _ & _ & -> & _).
  apply wrap8_indice.
Qed.

Lemma niveis_cons e r s :
  niveis (e :: r) s = nivel_db (snd (ciclo e s)) :: niveis r (fst (ciclo e s)).
Proof. reflexivity. Qed.

Lemma niveis_length (es : list Entradas) :
  forall s, length (niveis es s) = length es.
Proof.
  induction es as [|e r IH]; intros s; [reflexivity|].
  rewrite niveis_cons. cbn [length]. now rewrite IH.
Qed.

Lemma niveis_piso (es : list Entradas) :
  forall s, Forall (fun x => F32.leb (F32.of_Z 30) x = true) (niveis es s).
Proof.
  induction es as [|e r IH]; intros s; [constructor|].
  rewrite niveis_cons. constructor; [|apply IH].
  rewrite ciclo_nivel. unfold ler_decibeis.
  destruct (laco_amostras _ _ _ _) as [o q]. cbn [fst]. apply fmaxf_piso.
Qed.

Lemma executar_cronologica (es : list Entradas) :
  forall s,
    anel_valido s ->
    anel_valido (executar s es) /\
    leitura_cronologica (executar s es)
      = drop (length es) (leitura_cronologica s ++ niveis es s) /\
    indice_historico (executar s es)
      = (indice_historico s + Z.of_nat (length es)) mod TAMANHO_HISTORICO.
Proof.
  induction es as [|e r IH]; intros s V.
  - cbn [executar niveis length drop Z.of_nat]. rewrite app_nil_r.
    split; [exact V|]. split; [reflexivity|].
    destruct V as [_ Hi]. rewrite Z.add_0_r. symmetry.
    now apply Z.mod_small.
  - rewrite executar_cons, niveis_cons.
    destruct (IH _ (ciclo_anel_valido e s V)) as (V' & L & I).
    split; [exact V'|]. split.
    + rewrite L, ciclo_cronologica by assumption.
      pose proof (leitura_cronologica_length s) as Hl.
      destruct (leitura_cronologica s) as [|x l]; [discriminate|].
      cbn [length drop app]. rewrite drop_0, <- app_assoc. reflexivity.
    + rewrite I, ciclo_indice by assumption.
      unfold TAMANHO_HISTORICO. cbn [length].
      rewrite Zplus_mod_idemp_l. f_equal. lia.
Qed.

(** X8: the graph shows the last 128 measurements.  After a run of at
    least 128 cycles, reading the history from the write index yields
    exactly the levels measured in the last 128 cycles, oldest first, every
    cell then holds a level of at least 30.0, and the write index has
    advanced by the number of cycles modulo 128. *)
Theorem historico_apos_execucao :
  forall (es : list Entradas) (s : Firmware),
    anel_valido s ->
    (128 <= length es)%nat ->
    leitura_cronologica (executar s es)
      = drop (length es - 128) (niveis es s) /\
    Forall (fun x => F32.leb (F32.of_Z 30) x = true)
      (historico (executar s es)) /\
    indice_historico (executar s es)
      = (indice_historico s + Z.of_nat (length es)) mod 128.
Proof.
  intros es s V Hn.
  destruct (executar_cronologica es s V) as (V' & L & I).
  assert (E : leitura_cronologica (executar s es)
              = drop (length es - 128) (niveis es s)).
  { rewrite L, drop_app_ge; rewrite leitura_cronologica_length;
      [reflexivity|lia]. }
  split; [exact E|]. split; [|exact I].
  rewrite (historico_permutacao _ V'), E.
  apply Forall_drop, niveis_piso.
Qed.

Lemma verificar_botoes_last_press_range t1 t2 a b (s : Firmware) :
  0 <= last_press s < 4294967296 ->
  0 <= last_press (verificar_botoes t1 t2 a b s) < 4294967296.
Proof.
  intros H. unfold verificar_botoes.
  destruct (_ <? debounce_delay); [exact H|]. apply wrap32_range.
Qed.

Lemma ciclo_last_press (e : Entradas) (s : Firmware) :
  last_press (fst (ciclo e s)) =
    last_press
      (verificar_botoes (t_entrada e) (t_saida e)
         (gpio_botao_a e) (gpio_botao_b e) s).
Proof.
  rewrite ciclo_desdobrado. cbn zeta. cbn [fst].
  destruct (acionar_buzzer_campos
              (alerta_cond (fst (ler_decibeis (microfone e) s))
                 (antes_do_alerta e s))
              (antes_do_alerta e s)) as (_ & _ & _ & _ & _ & _ & _ & L).
  cbn zeta in L. rewrite L. unfold antes_do_alerta.
  match goal with
  | |- context [verificar_joystick ?r ?x] =>
      destruct (verificar_joystick_campos r x) as (_ & _ & _ & _ & _ & -> & _)
  end.
  unfold verificar_botoes. cbn [atualizar_historico last_press].
  destruct (ler_decibeis_campos (microfone e) s)
    as (_ & _ & _ & _ & _ & -> & _).
  destruct (_ <? debounce_delay); reflexivity.
Qed.

(** X9: invariants of the running device.  In every state reached from
    power-up, each cell of the history holds either the 0.0 it was
    initialised with or a measured level of at least 30.0 (never a NaN,
    never a negative value), and the alert counter and the debounce
    timestamp are within the range of a 32-bit unsigned integer. *)
Theorem alcancavel_invariantes :
  forall (s : Firmware),
    alcancavel s ->
    Forall nivel_ok (historico s) /\
    length (historico s) = 128%nat /\
    0 <= indice_historico s < 128 /\
    0 <= contador_alertas s < 4294967296 /\
    0 <= last_press s < 4294967296.
Proof.
  intros s H.
  destruct (alcancavel_anel_valido s H) as [Vl Vi].
  split; [|split; [exact Vl|split; [exact Vi|]]].
  - clear Vl Vi. induction H as [|e s _ IH].
    + apply Forall_replicate. now left.
    + destruct (ciclo_historico e s) as [Hh _]. cbn zeta in Hh.
      rewrite Hh. cbn [atualizar_historico historico].
      apply Forall_insert.
      * destruct (ler_decibeis_campos (microfone e) s)
          as (_ & _ & -> & _). exact IH.
      * right. unfold ler_decibeis.
        destruct (laco_amostras _ _ _ _) as [o q]. cbn [fst].
        apply fmaxf_piso.
  - clear Vl Vi. induction H as [|e s _ IH].
    + cbn [estado_inicial contador_alertas last_press]. lia.
    + destruct IH as [IC IL]. split.
      * destruct (ciclo_contador e s) as [_ Hc]. cbn zeta in Hc.
        rewrite Hc. destruct (negb _ && _); [apply wrap32_range|exact IC].
      * rewrite ciclo_last_press.
        now apply verificar_botoes_last_press_range.
Qed.

(** *** The level on the monitoring screen *)

Lemma ltb_false_leb (x y : float) :
  F32.is_nan x = false -> F32.is_nan y = false ->
  F32.ltb x y = false -> F32.leb y x = true.
Proof.
  unfold F32.ltb, F32.leb, SFltb, SFleb.
  destruct x as [[]|[]| |[] m1 e1], y as [[]|[]| |[] m2 e2];
    cbn; try discriminate; try reflexivity;
    change (Pos.compare_cont Eq) with Pos.compare;
    destruct (Z.compare_spec e1 e2), (Z.compare_spec e2 e1),
      (Pos.compare_spec m1 m2), (Pos.compare_spec m2 m1);
    cbn; try discriminate; try reflexivity; intros; lia.
Qed.

(** X10: the monitoring screen never shows a level above the threshold.
    In a cycle of the running device that draws neither the statistics
    screen nor the alert banner, the level measured is at least 30.0 and at
    most the threshold in force, itself at most 120.0. *)
Theorem monitoramento_abaixo_do_limite :
  forall (e : Entradas) (s : Firmware),
    alcancavel s ->
    modo_atual (fst (ciclo e s)) <> ESTATISTICAS ->
    condicao (snd (ciclo e s)) = false ->
    F32.leb (F32.of_Z 30) (nivel_db (snd (ciclo e s))) = true /\
    F32.leb (nivel_db (snd (ciclo e s))) (limite_atual_db (fst (ciclo e s)))
      = true /\
    F32.leb (limite_atual_db (fst (ciclo e s))) (F32.of_Z 120) = true.
Proof.
  intros e s Hs M C.
  assert (P : F32.leb (F32.of_Z 30) (nivel_db (snd (ciclo e s))) = true).
  { rewrite ciclo_nivel. unfold ler_decibeis.
    destruct (laco_amostras _ _ _ _) as [o q]. cbn [fst]. apply fmaxf_piso. }
  destruct (alcancavel_limite_inteiro (fst (ciclo e s)))
    as (k & Hk & Hl); [now constructor|].
  destruct (limite_inteiro k Hk) as (_ & _ & L30 & L120).
  split; [exact P|]. split; [|now rewrite Hl].
  rewrite ciclo_condicao in C.
  apply andb_false_iff in C as [C|C].
  - apply ltb_false_leb; [| |exact C].
    + rewrite Hl. revert L30. clear.
      destruct (F32.of_Z k); try reflexivity. discriminate.
    + destruct (leb_30_consequencias _ P) as (_ & N & _).
      destruct (nivel_db (snd (ciclo e s))); try reflexivity.
      now contradiction N.
  - destruct (modo_atual (fst (ciclo e s))); try discriminate.
    now contradiction M.
Qed.

(** ** [obter_valor_maximo] on any array *)

Lemma ler_historico_take (array : list float) (n : nat) :
  (n <= length array)%nat ->
  (fun i => ler_historico array (Z.of_nat i)) <$> seq 0 n = take n array.
Proof.
  clear log10f ssd1306_width.
  intros Hn. apply list_eq. intros i. rewrite list_lookup_fmap.
  destruct (Nat.lt_ge_cases i n) as [Hi|Hi].
  - rewrite lookup_seq_lt, lookup_take_lt by assumption. cbn.
    unfold ler_historico. rewrite Nat2Z.id.
    destruct (lookup_lt_is_Some_2 array i ltac:(lia)) as [x ->].
    reflexivity.
  - rewrite lookup_seq_ge, lookup_take_ge by assumption. reflexivity.
Qed.

Lemma maior_nan (array : list float) (idxs : list nat) :
  fold_left (maior array) idxs S754_nan = S754_nan.
Proof. induction idxs as [|i r IH]; [reflexivity|exact IH]. Qed.

(** X11: [obter_valor_maximo(array, size)], for a size between 1 and the
    length of the array, returns one of the first [size] elements, and none
    of them is greater than it.  A NaN is never greater nor smaller than
    anything: in first position it is what the function returns, whatever
    follows it. *)
Theorem obter_valor_maximo_geral :
  forall (array : list float) (size : Z),
    (1 <= Z.to_nat size <= length array)%nat ->
    elem_of (obter_valor_maximo array size) (take (Z.to_nat size) array) /\
    (forall x, elem_of x (take (Z.to_nat size) array) ->
               F32.ltb (obter_valor_maximo array size) x = false) /\
    (array !! 0%nat = Some S754_nan ->
     obter_valor_maximo array size = S754_nan).
Proof.
  intros array size [H1 Hn].
  pose proof (ler_historico_take array (Z.to_nat size) Hn) as E.
  replace (seq 0 (Z.to_nat size))
    with (0%nat :: seq 1 (Z.to_nat size - 1)) in E
    by (destruct (Z.to_nat size); [lia|cbn; now rewrite Nat.sub_0_r]).
  cbn [fmap list_fmap] in E.
  pose proof (maior_fold array (seq 1 (Z.to_nat size - 1))
                (ler_historico array 0) [ler_historico array 0]) as H.
  cbn zeta in H. cbn [app] in H.
  change (ler_historico array (Z.of_nat 0)) with (ler_historico array 0) in E.
  rewrite E in H.
  destruct H as [Ha Hb].
  - now apply list_elem_of_singleton.
  - intros x Hx. apply list_elem_of_singleton in Hx as ->. apply ltb_irrefl.
  - split; [exact Ha|]. split; [exact Hb|].
    intros N.
    assert (Z0 : ler_historico array 0 = S754_nan).
    { destruct array as [|x r]; [discriminate N|].
      cbn in N. injection N as ->. reflexivity. }
    unfold obter_valor_maximo. rewrite Z0. apply maior_nan.
Qed.

(** ** The drawing functions *)

Lemma exibir_linhas_imap (lines : list Texto) :
  forall y,
    exibir_linhas y lines
      = imap (fun i t => ssd1306_draw_string 5 (y + 8 * Z.of_nat i) t) lines.
Proof.
  clear log10f ssd1306_width.
  induction lines as [|t r IH]; intros y; [reflexivity|].
  cbn [exibir_linhas]. rewrite imap_cons, IH.
  cbn [Z.of_nat]. rewrite Z.mul_0_r, Z.add_0_r. f_equal.
  apply imap_ext. intros i x _. cbn. f_equal. lia.
Qed.

(** X12: [exibir_texto] draws every line it is given once, in order, the
    i-th (from 0) at column 5 and row 8 * i; it draws nothing else. *)
Theorem exibir_texto_linhas :
  forall (lines : list Texto),
    exibir_texto lines
      = imap (fun i t => ssd1306_draw_string 5 (8 * Z.of_nat i) t) lines /\
    length (exibir_texto lines) = length lines.
Proof.
  intros lines. unfold exibir_texto.
  rewrite exibir_linhas_imap. split; [reflexivity|apply length_imap].
Qed.

Lemma colunas_pontos (s : Firmware) (escala : float) (l : list nat) :
  colunas (ponto_grafico s escala <$> l) = Z.of_nat <$> l.
Proof.
  induction l as [|i r IH]; [reflexivity|].
  cbn [fmap list_fmap]. unfold colunas in IH |- *.
  cbn [omap list_omap ponto_grafico]. now rewrite IH.
Qed.

(** X13: the shape of the frame of [atualizar_display].  In the mode
    Monitoring it is made of the three texts, 128 pixels and two lines, the
    pixels being set in the columns 0, 1, ..., 127, one per column.  In any
    other mode the function draws the three texts alone, with the label of
    that mode and no graph. *)
Theorem atualizar_display_forma :
  forall (db : float) (s : Firmware),
    (modo_atual s = MONITORAMENTO ->
     length (atualizar_display db s) = 133%nat /\
     colunas (atualizar_display db s) = Z.of_nat <$> seq 0 128) /\
    (modo_atual s <> MONITORAMENTO ->
     atualizar_display db s =
       [ssd1306_draw_string 5 0 (TextoDb db);
        ssd1306_draw_string 5 45
          (Literal (if Modo_eqb (modo_atual s) ALERTA
                    then "Modo Alerta" else "Estatisticas"));
        ssd1306_draw_string 5 55 (TextoLimite (limite_atual_db s))]).
Proof.
  intros db s. unfold atualizar_display. split.
  - intros ->. split.
    + rewrite !length_app, length_fmap, length_seq. reflexivity.
    + unfold colunas. rewrite !omap_app.
      fold (colunas (ponto_grafico s
                       (escala_grafico
                          (obter_valor_maximo (historico s) TAMANHO_HISTORICO))
                     <$> seq 0 (Z.to_nat TAMANHO_HISTORICO))).
      rewrite colunas_pontos. cbn [omap list_omap app].
      now rewrite app_nil_r.
  - intros M. destruct (modo_atual s); [contradiction|reflexivity|reflexivity].
Qed.

(** [desenhar_grafico] plots the history oldest entry first, one pixel
    per column 0..127, the level in column i at row 40 minus the integer
    part of 0.8 times the level. *)
Lemma desenhar_grafico_cronologico :
  forall (s : Firmware),
    desenhar_grafico s
      = imap (ponto_do_nivel (F32.lit 8 10)) (leitura_cronologica s) /\
    length (desenhar_grafico s) = 128%nat /\
    colunas (desenhar_grafico s) = Z.of_nat <$> seq 0 128.
Proof.
  intros s. unfold desenhar_grafico. split; [apply pontos_cronologicos|].
  split; [now rewrite length_fmap, length_seq | apply colunas_pontos].
Qed.

(** ** What a cycle lets each input influence *)

Lemma verificar_botoes_limite_dep t1 t2 a b (s1 s2 : Firmware) :
  limite_atual_db s1 = limite_atual_db s2 ->
  last_press s1 = last_press s2 ->
  limite_atual_db (verificar_botoes t1 t2 a b s1)
    = limite_atual_db (verificar_botoes t1 t2 a b s2) /\
  last_press (verificar_botoes t1 t2 a b s1)
    = last_press (verificar_botoes t1 t2 a b s2).
Proof.
  intros Hl Hp. unfold verificar_botoes. rewrite Hl, Hp.
  destruct (_ <? debounce_delay); [now split|]. split; reflexivity.
Qed.

Lemma ciclo_limite_botoes (e : Entradas) (s : Firmware) :
  limite_atual_db (fst (ciclo e s)) =
    limite_atual_db
      (verificar_botoes (t_entrada e) (t_saida e)
         (gpio_botao_a e) (gpio_botao_b e) s).
Proof.
  rewrite ciclo_limite.
  apply verificar_botoes_limite_dep; cbn [atualizar_historico];
    apply (ler_decibeis_campos (microfone e) s).
Qed.

Lemma verificar_joystick_modo_dep r (s1 s2 : Firmware) :
  modo_atual s1 = modo_atual s2 ->
  modo_atual (verificar_joystick r s1) = modo_atual (verificar_joystick r s2).
Proof.
  intros H. unfold verificar_joystick.
  destruct (F32.ltb (posicao_x r) _); [reflexivity|].
  destruct (F32.ltb _ (posicao_x r)); [reflexivity|exact H].
Qed.

(** ** The alert condition *)

(** C2: on every cycle the alert condition is
    [(level > threshold) && (mode != ESTATISTICAS)], where the level is the
    one [ler_decibeis] returns in that cycle from the microphone samples,
    the threshold the one [verificar_botoes] leaves and the mode the one
    [verificar_joystick] leaves in that cycle; it is the value
    [acionar_buzzer] receives, in the state the polling left, and records
    in [estado_anterior]; the state after the cycle and the commands sent
    to the buzzer are what that call returns.  So a level
    above the threshold gives a false condition when the mode is
    Statistics and a true one in any other mode; and the function of the
    level, threshold and mode that [main] evaluates has these values for
    any level and any state. *)
Theorem alerta_cond_definicao :
  forall (e : Entradas) (s : Firmware) (db0 : float) (s0 : Firmware),
    let db := fst (ler_decibeis (microfone e) s) in
    let limite :=
      limite_atual_db
        (verificar_botoes (t_entrada e) (t_saida e)
           (gpio_botao_a e) (gpio_botao_b e) s) in
    let modo := modo_atual (verificar_joystick (joystick e) s) in
    nivel_db (snd (ciclo e s)) = db /\
    limite_atual_db (fst (ciclo e s)) = limite /\
    modo_atual (fst (ciclo e s)) = modo /\
    condicao (snd (ciclo e s))
      = F32.ltb limite db && negb (Modo_eqb modo ESTATISTICAS) /\
    estado_anterior (fst (ciclo e s)) = condicao (snd (ciclo e s)) /\
    (fst (ciclo e s), pwm (snd (ciclo e s)))
      = acionar_buzzer (condicao (snd (ciclo e s))) (antes_do_alerta e s) /\
    (F32.ltb limite db = true ->
     (modo = ESTATISTICAS ->
      condicao (snd (ciclo e s)) = false /\
      estado_anterior (fst (ciclo e s)) = false) /\
     (modo <> ESTATISTICAS ->
      condicao (snd (ciclo e s)) = true /\
      estado_anterior (fst (ciclo e s)) = true)) /\
    (F32.ltb (limite_atual_db s0) db0 = true ->
     (modo_atual s0 = ESTATISTICAS -> alerta_cond db0 s0 = false) /\
     (modo_atual s0 <> ESTATISTICAS -> alerta_cond db0 s0 = true)).
Proof.
  intros e s db0 s0 db limite modo.
  assert (C : condicao (snd (ciclo e s))
              = F32.ltb limite db && negb (Modo_eqb modo ESTATISTICAS)).
  { subst db limite modo.
    rewrite ciclo_condicao, ciclo_limite_botoes, ciclo_modo, ciclo_nivel.
    reflexivity. }
  destruct (ciclo_contador e s) as [Ha _]. cbn zeta in Ha.
  split; [apply ciclo_nivel|]. split; [apply ciclo_limite_botoes|].
  split; [apply ciclo_modo|]. split; [exact C|]. split; [exact Ha|].
  split.
  { rewrite (ciclo_desdobrado e s). cbn zeta. cbn [fst snd pwm condicao].
    now destruct (acionar_buzzer _ _). }
  split.
  - intros Hgt. rewrite Ha, C, Hgt. split.
    + intros ->. now split.
    + intros M. destruct modo; try contradiction; now split.
  - intros Hgt. split.
    + intros M. unfold alerta_cond. rewrite M. apply andb_false_r.
    + intros M. unfold alerta_cond. rewrite Hgt.
      destruct (modo_atual s0); [reflexivity | reflexivity | contradiction].
Qed.

(** X14: the sound never moves the settings.  The threshold and the
    debounce timestamp after a cycle depend only on the two timer readings,
    the two buttons and their own values before the cycle; the mode depends
    only on the joystick reading and the mode before: two cycles that agree
    on these agree on the results, whatever the microphone, the history,
    the counter and the state of the alarm are. *)
Theorem ciclo_ajustes_independentes :
  forall (e1 e2 : Entradas) (s1 s2 : Firmware),
    (t_entrada e1 = t_entrada e2 -> t_saida e1 = t_saida e2 ->
     gpio_botao_a e1 = gpio_botao_a e2 -> gpio_botao_b e1 = gpio_botao_b e2 ->
     limite_atual_db s1 = limite_atual_db s2 ->
     last_press s1 = last_press s2 ->
     limite_atual_db (fst (ciclo e1 s1)) = limite_atual_db (fst (ciclo e2 s2))
     /\ last_press (fst (ciclo e1 s1)) = last_press (fst (ciclo e2 s2))) /\
    (joystick e1 = joystick e2 ->
     modo_atual s1 = modo_atual s2 ->
     modo_atual (fst (ciclo e1 s1)) = modo_atual (fst (ciclo e2 s2))).
Proof.
  intros e1 e2 s1 s2. split.
  - intros E1 E2 E3 E4 Hl Hp.
    rewrite !ciclo_limite_botoes, !ciclo_last_press, E1, E2, E3, E4.
    now apply verificar_botoes_limite_dep.
  - intros E Hm. rewrite !ciclo_modo, E.
    now apply verificar_joystick_modo_dep.
Qed.

(** ** The DC offset across calls of [ler_decibeis] *)

Lemma offsets_formula_app (l1 l2 : list float) :
  forall o,
    offsets_formula o (l1 ++ l2)
      = offsets_formula o l1
        ++ offsets_formula (default o (last (offsets_formula o l1))) l2.
Proof.
  clear log10f ssd1306_width.
  induction l1 as [|v r IH]; intros o; [reflexivity|].
  cbn [app offsets_formula]. rewrite IH. cbn [app]. f_equal. f_equal.
  rewrite last_cons. destruct (last (offsets_formula _ r)); reflexivity.
Qed.

Lemma ler_decibeis_offset (adc : nat -> Z) (s : Firmware) :
  offset_dc (snd (ler_decibeis adc s))
    = default (offset_dc s)
        (last (offsets_formula (offset_dc s)
                 (tensao_formula 4096 <$> amostras_lidas adc 0 64))).
Proof.
  unfold ler_decibeis. change (Z.to_nat AMOSTRAS) with 64%nat.
  rewrite laco_amostras_formula. reflexivity.
Qed.

(** X15: the DC offset is carried from one call of [ler_decibeis] to the
    next, the sum of squares is not: after two calls the offset is the one
    the filter reaches over the 128 samples of both batches in sequence,
    and the second call touches no other global than the offset. *)
Theorem ler_decibeis_offset_persistente :
  forall (adc1 adc2 : nat -> Z) (s : Firmware),
    let s1 := snd (ler_decibeis adc1 s) in
    let s2 := snd (ler_decibeis adc2 s1) in
    offset_dc s2
      = default (offset_dc s)
          (last (offsets_formula (offset_dc s)
                   (tensao_formula 4096
                    <$> (amostras_lidas adc1 0 64 ++ amostras_lidas adc2 0 64))))
    /\ fst (ler_decibeis adc2 s1)
       = nivel_formula 4096 (offset_dc s1) (amostras_lidas adc2 0 64)
    /\ s2 = mkFirmware (limite_atual_db s) (modo_atual s) (historico s)
              (indice_historico s) (contador_alertas s) (offset_dc s2)
              (last_press s) (estado_anterior s).
Proof.
  intros adc1 adc2 s s1 s2. split; [|split].
  - subst s2. rewrite ler_decibeis_offset. subst s1.
    rewrite ler_decibeis_offset, fmap_app, offsets_formula_app.
    rewrite last_app.
    destruct (last (offsets_formula _ (tensao_formula 4096
                                       <$> amostras_lidas adc2 0 64)));
      reflexivity.
  - unfold ler_decibeis. change (Z.to_nat AMOSTRAS) with 64%nat.
    rewrite laco_amostras_formula. reflexivity.
  - subst s2 s1. unfold ler_decibeis.
    destruct (laco_amostras _ adc1 _ _) as [o1 q1]. cbn [snd offset_dc].
    destruct (laco_amostras _ adc2 _ _) as [o2 q2]. reflexivity.
Qed.

End Firmware.

(** Counterexample to C8 as stated: with 30.5 dB in the history and a scale
    factor of 1.0, the point is drawn at row 10 = 40 - 30, whereas
    40 - level * scale is 9.5. *)
Lemma ponto_do_grafico_truncado :
  atualizar_display 128 (F32.lit 61 2) estado_30_5 !! 130%nat
    = Some (ssd1306_set_pixel 127 10 true) /\
  leitura_cronologica estado_30_5 !! 127%nat = Some (F32.lit 61 2) /\
  escala_grafico (obter_valor_maximo (historico estado_30_5) TAMANHO_HISTORICO)
    = F32.of_Z 1 /\
  exists q, F32.valor (F32.lit 61 2 * F32.of_Z 1)%f32 = Some q /\
            (q == 61 # 2)%Q /\ ~ (inject_Z 10 == 40 - q)%Q.
Proof.
  split; [|split; [|split]]; try (vm_compute; reflexivity).
  eexists. split; [vm_compute; reflexivity|].
  split; vm_compute; congruence.
Qed.

(** Witness of [contador_alertas_por_borda]: the microphone line steps
    from 0 to mid-scale and back; each step raises the alert for one
    cycle, until the offset filter has caught up. *)
Lemma contador_alertas_por_borda_exemplo :
  condicoes log10f_grosso 128
    [entrada_constante 0 500000; entrada_constante 2048 530000;
     entrada_constante 2048 560000; entrada_constante 0 590000;
     entrada_constante 0 620000] estado_inicial
    = [false; true; false; true; false] /\
  contador_alertas
    (executar log10f_grosso 128 estado_inicial
       [entrada_constante 0 500000; entrada_constante 2048 530000;
        entrada_constante 2048 560000; entrada_constante 0 590000;
        entrada_constante 0 620000]) = 2.
Proof.
  split; [vm_compute; reflexivity|].
  assert (Hs : 0 <= contador_alertas estado_inicial < 4294967296)
    by (cbn; lia).
  destruct (contador_alertas_por_borda log10f_grosso 128
       [entrada_constante 0 500000; entrada_constante 2048 530000;
        entrada_constante 2048 560000; entrada_constante 0 590000;
        entrada_constante 0 620000] estado_inicial Hs)
    as (_ & H & _).
  rewrite H; vm_compute; reflexivity.
Defined.

(** Witness of [alerta_cond_definicao]: a first cycle in which the level
    measured is above the threshold of 100 dB, with the stick at rest (the
    alarm starts) and with the stick at the Statistics end (it does not);
    and a level of 105 against a threshold of 100. *)
Lemma alerta_cond_definicao_exemplo :
  (condicao (snd (ciclo log10f_grosso 128 (entrada_constante 2048 500000)
                    estado_inicial)) = true /\
   estado_anterior (fst (ciclo log10f_grosso 128
                           (entrada_constante 2048 500000) estado_inicial))
     = true) /\
  (condicao (snd (ciclo log10f_grosso 128
                    (mkEntradas (fun _ => 2048) 500000 500003 true true 3000)
                    estado_inicial)) = false /\
   estado_anterior (fst (ciclo log10f_grosso 128
                           (mkEntradas (fun _ => 2048) 500000 500003
                              true true 3000) estado_inicial))
     = false) /\
  alerta_cond (F32.of_Z 105)
    (mkFirmware (F32.of_Z 100) ESTATISTICAS
       (replicate 128 F32.zero) 0 0 F32.zero 0 false) = false /\
  alerta_cond (F32.of_Z 105) estado_inicial = true.
Proof.
  split; [|split; [|split]].
  - destruct (alerta_cond_definicao log10f_grosso 128
                (entrada_constante 2048 500000) estado_inicial
                (F32.of_Z 105) estado_inicial)
      as (_ & _ & _ & _ & _ & _ & H & _).
    apply H; [vm_compute; reflexivity | vm_compute; discriminate].
  - destruct (alerta_cond_definicao log10f_grosso 128
                (mkEntradas (fun _ => 2048) 500000 500003 true true 3000)
                estado_inicial (F32.of_Z 105) estado_inicial)
      as (_ & _ & _ & _ & _ & _ & H & _).
    apply H; vm_compute; reflexivity.
  - destruct (alerta_cond_definicao log10f_grosso 128
                (entrada_constante 2048 500000) estado_inicial
                (F32.of_Z 105)
                (mkFirmware (F32.of_Z 100) ESTATISTICAS
                   (replicate 128 F32.zero) 0 0 F32.zero 0 false))
      as (_ & _ & _ & _ & _ & _ & _ & H).
    apply H; reflexivity.
  - destruct (alerta_cond_definicao log10f_grosso 128
                (entrada_constante 2048 500000) estado_inicial
                (F32.of_Z 105) estado_inicial)
      as (_ & _ & _ & _ & _ & _ & _ & H).
    apply H; [reflexivity | discriminate].
Defined.

(** ** Closed examples *)

(** The literals of the source, against their IEEE-754 encodings
    (0x40533333, 0x3F733333, 0x3D4CCCCD, 0x37A7C5AC, 0x2B8CBCCC,
    0x3E99999A, 0x3F333333). *)
Lemma literais_binary32 :
  F32.lit 33 10 = S754_finite false 13841203 (-22) /\
  F32.lit 95 100 = S754_finite false 15938355 (-24) /\
  F32.lit 5 100 = S754_finite false 13421773 (-28) /\
  CALIBRACAO = S754_finite false 10995116 (-39) /\
  epsilon_log = S754_finite false 9223372 (-63) /\
  F32.lit 3 10 = S754_finite false 10066330 (-25) /\
  F32.lit 7 10 = S754_finite false 11744051 (-24).
Proof. repeat split; reflexivity. Qed.

(** Counterexample to C3 as stated: the code divides by 4096, not by 4095.
    For a full-scale sample the voltage is 3.2991943..., whereas
    raw * 3.3 / 4095 is 3.3; after a batch of such samples from a zero
    offset the offset the code leaves differs from the one the formula with
    4095 gives. *)
Lemma tensao_divide_por_4096 :
  tensao_formula 4096 4095 = S754_finite false 13837824 (-22) /\
  tensao_formula 4095 4095 = S754_finite false 13841203 (-22) /\
  fst (amostrar 4095 (F32.zero, F32.zero))
    <> F32.add (F32.mul (F32.lit 95 100) F32.zero)
         (F32.mul (F32.lit 5 100) (tensao_formula 4095 4095)) /\
  offset_dc (snd (ler_decibeis log10f_grosso amostras_cheias estado_inicial))
    = S754_finite false 13318564 (-22) /\
  default F32.zero
    (last (offsets_formula F32.zero
             (tensao_formula 4095 <$> amostras_lidas amostras_cheias 0 64)))
    = S754_finite false 13321819 (-22).
Proof.
  split; [reflexivity|]. split; [reflexivity|].
  split; [vm_compute; discriminate|].
  split; vm_compute; reflexivity.
Qed.

(** Witness of [ler_decibeis_piso]: the microphone line at 0 V from
    power-up. *)
Lemma ler_decibeis_piso_exemplo :
  fst (ler_decibeis log10f_grosso (fun _ => 0) estado_inicial) = F32.of_Z 30.
Proof.
  apply (ler_decibeis_piso log10f_grosso (fun _ => 0) estado_inicial).
  - intros i _. lia.
  - intros i Hi.
    do 64 (destruct i as [|i]; [vm_compute; reflexivity|]). lia.
  - vm_compute. reflexivity.
Defined.

(** Witness of [limite_atual_db_entre_30_e_120]: the state after a first
    cycle with button A held down. *)
Lemma limite_atual_db_entre_30_e_120_exemplo :
  F32.leb (F32.of_Z 30)
    (limite_atual_db
       (fst (ciclo log10f_grosso 128
               (mkEntradas (fun _ => 0) 500000 500003 false true 2048)
               estado_inicial))) = true /\
  F32.leb
    (limite_atual_db
       (fst (ciclo log10f_grosso 128
               (mkEntradas (fun _ => 0) 500000 500003 false true 2048)
               estado_inicial)))
    (F32.of_Z 120) = true.
Proof.
  destruct (limite_atual_db_entre_30_e_120 log10f_grosso 128
              (fst (ciclo log10f_grosso 128
                      (mkEntradas (fun _ => 0) 500000 500003 false true 2048)
                      estado_inicial))
              (alc_ciclo log10f_grosso 128 _ _ (alc_inicial log10f_grosso 128)))
    as (_ & H1 & H2 & _).
  split; assumption.
Defined.

(** Witness of [debounce_compartilhado]: button A held down in two calls
    30 ms apart; only the first one is acted upon. *)
Lemma debounce_compartilhado_exemplo :
  chamar_botoes (mkChamada 530000 530003 false true)
    (chamar_botoes (mkChamada 500000 500003 false true) estado_inicial)
    = chamar_botoes (mkChamada 500000 500003 false true) estado_inicial /\
  limite_atual_db
    (chamar_botoes (mkChamada 500000 500003 false true) estado_inicial)
    = F32.of_Z 101.
Proof.
  split; [|reflexivity].
  destruct (debounce_compartilhado estado_inicial
              (mkChamada 500000 500003 false true)
              (mkChamada 530000 530003 false true) 0)
    as (_ & _ & [H|H] & _).
  - cbn. lia.
  - cbn. unfold debounce_delay. lia.
  - exfalso. apply (f_equal last_press) in H. vm_compute in H. discriminate.
  - exact H.
Defined.

(** Witness of [historico_ultimos_128]: 130 pushes from power-up. *)
Lemma historico_ultimos_128_exemplo :
  leitura_cronologica (empurrar niveis_exemplo estado_inicial)
    = drop 2 niveis_exemplo.
Proof.
  assert (V : anel_valido estado_inicial).
  { split; [reflexivity|].
    unfold TAMANHO_HISTORICO. cbn [estado_inicial indice_historico]. lia. }
  assert (L : (128 <= length niveis_exemplo)%nat)
    by (apply Nat.leb_le; reflexivity).
  destruct (historico_ultimos_128 niveis_exemplo estado_inicial V L)
    as (_ & _ & H).
  exact H.
Defined.

(** Witness of [tela_por_prioridade]: the first cycle after power-up, in
    silence, draws the monitoring screen. *)
Lemma tela_por_prioridade_exemplo :
  tela (snd (ciclo log10f_grosso 128 (entrada_constante 0 500000)
               estado_inicial))
    = tela_monitoramento 128 (F32.of_Z 30) (F32.of_Z 100)
        (replicate 127 F32.zero ++ [F32.of_Z 30]) (F32.of_Z 1).
Proof.
  destruct (tela_por_prioridade log10f_grosso 128
              (entrada_constante 0 500000) estado_inicial
              (alc_inicial log10f_grosso 128)) as (H & _).
  cbn zeta in H. rewrite H. vm_compute. reflexivity.
Defined.

(** Witness of [verificar_joystick_zonas]: the stick pushed to the
    Monitoring end while the mode is Statistics, and to the Statistics end
    at power-up. *)
Lemma verificar_joystick_zonas_exemplo :
  modo_atual
    (verificar_joystick 100
       (mkFirmware (F32.of_Z 100) ESTATISTICAS (replicate 128 F32.zero)
          0 0 F32.zero 0 false)) = MONITORAMENTO
  /\ modo_atual (verificar_joystick 4000 estado_inicial) = ESTATISTICAS.
Proof.
  split.
  - destruct (verificar_joystick_zonas log10f_grosso 128 100
                (mkFirmware (F32.of_Z 100) ESTATISTICAS
                   (replicate 128 F32.zero) 0 0 F32.zero 0 false)
                [] ltac:(lia)) as (_ & H & _).
    apply H. reflexivity.
  - destruct (verificar_joystick_zonas log10f_grosso 128 4000 estado_inicial
                [] ltac:(lia)) as (_ & _ & H & _).
    apply H. reflexivity.
Defined.

(** Witness of [debounce_sem_botao]: a call with no button down, then a
    press of button A 30 ms later, which is ignored. *)
Lemma debounce_sem_botao_exemplo :
  executar_botoes [mkChamada 530000 530003 false true]
    (chamar_botoes (mkChamada 500000 500003 true true) estado_inicial)
    = chamar_botoes (mkChamada 500000 500003 true true) estado_inicial /\
  limite_atual_db
    (chamar_botoes (mkChamada 500000 500003 true true) estado_inicial)
    = limite_atual_db estado_inicial.
Proof.
  assert (G : debounce_delay
              <= wrap32 (wrap32 (ch_entrada (mkChamada 500000 500003 true true))
                         - last_press estado_inicial))
    by (vm_compute; discriminate).
  destruct (debounce_sem_botao estado_inicial
              (mkChamada 500000 500003 true true)
              [mkChamada 530000 530003 false true]
              (mkChamada 530000 530003 false true) G)
    as (_ & H2 & H3 & _).
  split.
  - apply H3. repeat constructor; cbn; unfold debounce_delay; lia.
  - apply H2; reflexivity.
Defined.

(** ** Closed examples of the further properties *)

(** Witness of [verificar_botoes_portao_modular]: a press one turn of the
    timer and 100 ms after power-up is stopped. *)
Lemma verificar_botoes_portao_modular_exemplo :
  verificar_botoes (4294967296 + 100000) (4294967296 + 100003) false true
    estado_inicial = estado_inicial.
Proof.
  destruct (verificar_botoes_portao_modular estado_inicial 0
              (4294967296 + 100000) (4294967296 + 100003) false true
              eq_refl) as (H & _).
  apply H. reflexivity.
Defined.

(** Witness of [verificar_botoes_mantido]: button A held over three calls
    250 ms apart, from power-up. *)
Lemma verificar_botoes_mantido_exemplo :
  limite_atual_db
    (executar_botoes
       [mkChamada 500000 500003 false true;
        mkChamada 750000 750003 false true;
        mkChamada 1000000 1000003 false true] estado_inicial)
    = F32.of_Z 103.
Proof.
  assert (E : espacadas 0
                [mkChamada 500000 500003 false true;
                 mkChamada 750000 750003 false true;
                 mkChamada 1000000 1000003 false true]).
  { cbn. unfold debounce_delay. lia. }
  destruct (verificar_botoes_mantido
              [mkChamada 500000 500003 false true;
               mkChamada 750000 750003 false true;
               mkChamada 1000000 1000003 false true]
              estado_inicial 0 100 eq_refl ltac:(lia) eq_refl E) as [H _].
  rewrite H; [reflexivity|]. repeat constructor.
Defined.

(** Witness of [verificar_botoes_ambos]: both buttons down at power-up. *)
Lemma verificar_botoes_ambos_exemplo :
  limite_atual_db (verificar_botoes 500000 500003 false false estado_inicial)
    = F32.of_Z 100.
Proof.
  apply (verificar_botoes_ambos estado_inicial 500000 500003 100);
    [vm_compute; discriminate | lia | reflexivity].
Defined.

(** Witness of [verificar_joystick_retem]: one end, the dead zone, the
    other end, the dead zone again. *)
Lemma verificar_joystick_retem_exemplo :
  modo_atual (executar_joystick [100; 2000; 3000; 2000] estado_inicial)
    = ESTATISTICAS.
Proof.
  destruct (verificar_joystick_retem [100; 2000; 3000; 2000] estado_inicial)
    as [H _].
  - repeat constructor; lia.
  - rewrite H. reflexivity.
Defined.

(** Witness of [estatisticas_silencia]: the stick goes to the Statistics
    end while the alarm of the first cycle is sounding. *)
Lemma estatisticas_silencia_exemplo :
  estado_anterior
    (fst (ciclo log10f_grosso 128 (entrada_constante 2048 500000)
            estado_inicial)) = true /\
  pwm (snd (ciclo log10f_grosso 128
              (mkEntradas (fun _ => 2048) 530000 530003 true true 3000)
              (fst (ciclo log10f_grosso 128 (entrada_constante 2048 500000)
                      estado_inicial))))
    = [pwm_set_enabled BUZZER_PIN false] /\
  tela (snd (ciclo log10f_grosso 128
               (mkEntradas (fun _ => 2048) 530000 530003 true true 3000)
               (fst (ciclo log10f_grosso 128 (entrada_constante 2048 500000)
                       estado_inicial))))
    = tela_estatisticas 1.
Proof.
  assert (R : 2868
              <= joystick (mkEntradas (fun _ => 2048) 530000 530003
                             true true 3000) < 4096) by (cbn; lia).
  destruct (estatisticas_silencia log10f_grosso 128
              (mkEntradas (fun _ => 2048) 530000 530003 true true 3000)
              (fst (ciclo log10f_grosso 128 (entrada_constante 2048 500000)
                      estado_inicial)) R)
    as (_ & _ & _ & P & _ & T).
  split; [vm_compute; reflexivity|].
  split; [rewrite P | rewrite T]; vm_compute; reflexivity.
Defined.

(** Witness of [historico_apos_execucao]: 130 cycles from power-up. *)
Lemma historico_apos_execucao_exemplo :
  indice_historico
    (executar log10f_grosso 128 estado_inicial
       (replicate 130 (entrada_constante 0 500000))) = 2.
Proof.
  assert (V : anel_valido estado_inicial).
  { split; [reflexivity|].
    unfold TAMANHO_HISTORICO. cbn [estado_inicial indice_historico]. lia. }
  assert (L : (128 <= length (replicate 130 (entrada_constante 0 500000)))%nat)
    by (rewrite length_replicate; lia).
  destruct (historico_apos_execucao log10f_grosso 128
              (replicate 130 (entrada_constante 0 500000)) estado_inicial V L)
    as (_ & _ & I).
  rewrite I, length_replicate. reflexivity.
Defined.

(** Witness of [alcancavel_invariantes]: the state after a first cycle. *)
Lemma alcancavel_invariantes_exemplo :
  Forall nivel_ok
    (historico (fst (ciclo log10f_grosso 128 (entrada_constante 2048 500000)
                       estado_inicial))).
Proof.
  apply (alcancavel_invariantes log10f_grosso 128
           (fst (ciclo log10f_grosso 128 (entrada_constante 2048 500000)
                   estado_inicial))
           (alc_ciclo log10f_grosso 128 _ _ (alc_inicial log10f_grosso 128))).
Defined.

(** Witness of [monitoramento_abaixo_do_limite]: the first cycle, in
    silence. *)
Lemma monitoramento_abaixo_do_limite_exemplo :
  F32.leb
    (nivel_db (snd (ciclo log10f_grosso 128 (entrada_constante 0 500000)
                      estado_inicial)))
    (limite_atual_db (fst (ciclo log10f_grosso 128
                             (entrada_constante 0 500000) estado_inicial)))
    = true.
Proof.
  apply (monitoramento_abaixo_do_limite log10f_grosso 128
           (entrada_constante 0 500000) estado_inicial
           (alc_inicial log10f_grosso 128)).
  - vm_compute. discriminate.
  - vm_compute. reflexivity.
Defined.

(** Witness of [obter_valor_maximo_geral]: three values, the greatest in
    the middle. *)
Lemma obter_valor_maximo_geral_exemplo :
  F32.ltb (obter_valor_maximo [F32.of_Z 1; F32.of_Z 5; F32.of_Z 3] 3)
    (F32.of_Z 5) = false.
Proof.
  assert (H : (1 <= Z.to_nat 3
               <= length [F32.of_Z 1; F32.of_Z 5; F32.of_Z 3])%nat)
    by (cbn; lia).
  destruct (obter_valor_maximo_geral [F32.of_Z 1; F32.of_Z 5; F32.of_Z 3] 3 H)
    as (_ & M & _).
  apply M. apply list_elem_of_lookup. exists 1%nat. reflexivity.
Defined.

(** Witness of [atualizar_display_forma]: the frame at power-up. *)
Lemma atualizar_display_forma_exemplo :
  length (atualizar_display 128 (F32.of_Z 30) estado_inicial) = 133%nat.
Proof.
  destruct (atualizar_display_forma 128 (F32.of_Z 30) estado_inicial)
    as [H _].
  apply H. reflexivity.
Defined.

(** Witness of [ciclo_ajustes_independentes]: a silent and a loud cycle
    with button A down leave the same threshold. *)
Lemma ciclo_ajustes_independentes_exemplo :
  limite_atual_db
    (fst (ciclo log10f_grosso 128
            (mkEntradas (fun _ => 0) 500000 500003 false true 2048)
            estado_inicial))
  = limite_atual_db
      (fst (ciclo log10f_grosso 128
              (mkEntradas (fun _ => 4095) 500000 500003 false true 2048)
              estado_inicial)).
Proof.
  destruct (ciclo_ajustes_independentes log10f_grosso 128
              (mkEntradas (fun _ => 0) 500000 500003 false true 2048)
              (mkEntradas (fun _ => 4095) 500000 500003 false true 2048)
              estado_inicial estado_inicial) as [H _].
  apply H; reflexivity.
Defined.
